(** * Replay usage driver (qiime2/core/archive/provenance_lib/usage_drivers.py)

    A shallow embedding of the Python replay driver and the properties of
    its rendering functions.

    Conventions of the embedding:
    - a Python [str] is a [string]; a character is an [ascii], read as a
      code point below 256;
    - a Python [list] of [str] is a [list string];
    - a Python [set] is a [gset], a [dict] used as a map is a [gmap];
    - an ordered mapping that is only iterated ([UsageInputs],
      [UsageOutputs]) is an association list in iteration order;
    - an instance of the driver class is a record, and a method is a
      function from the record to the result and the new record. *)

From Stdlib Require Import ZArith Ascii String List Lia.
From stdpp Require Import base list strings gmap sorting.

Local Open Scope nat_scope.
Local Open Scope stdpp_scope.

(** ** Python primitives used by the driver *)

Module Py.

(** The line feed and the horizontal tab. *)
Definition LF : string := String "010" "".
Definition TAB : string := String "009" "".

(** [len(s)] for a string. *)
Abbreviation len := String.length.

(** [sep.join(parts)]. *)
Fixpoint join (sep : string) (parts : list string) : string :=
  match parts with
  | [] => ""
  | [p] => p
  | p :: ps => p +:+ sep +:+ join sep ps
  end.

(** The truth value of a list: it is not empty. *)
Definition truthy {A} (l : list A) : bool :=
  match l with [] => false | _ => true end.

(** [s * n]: [n] copies of [s]. *)
Fixpoint mul (s : string) (n : nat) : string :=
  match n with
  | 0 => ""
  | S n' => s +:+ mul s n'
  end.

(** [''.join(parts)]. *)
Definition cat (parts : list string) : string := foldr String.append "" parts.

(** [c.isspace()] on the code points below 256. *)
Definition isspace (c : ascii) : bool :=
  let n := nat_of_ascii c in
  ((9 <=? n) && (n <=? 13)) || ((28 <=? n) && (n <=? 32))
  || (n =? 133) || (n =? 160).

(** [s.lstrip()], [s.rstrip()] and [s.strip()] without argument. *)
Fixpoint lstrip (s : string) : string :=
  match s with
  | String c s' => if isspace c then lstrip s' else s
  | "" => ""
  end.

Fixpoint rstrip (s : string) : string :=
  match s with
  | String c s' =>
      match rstrip s' with
      | "" => if isspace c then "" else String c ""
      | r => String c r
      end
  | "" => ""
  end.

Definition strip (s : string) : string := rstrip (lstrip s).

(** [range(start, stop, step)] for a positive step; the loop counter
    runs until it reaches [stop]. *)
Fixpoint range_from (fuel start stop step : nat) : list nat :=
  match fuel with
  | 0 => []
  | S fuel' =>
      if start <? stop
      then start :: range_from fuel' (start + step) stop step
      else []
  end.

Definition range (start stop step : nat) : list nat :=
  range_from (stop - start) start stop step.

(** [sorted(xs)] on strings: Python compares strings code point by code
    point, which is [String.le]. *)
Definition sorted (xs : list string) : list string :=
  merge_sort String.le xs.

End Py.

(** ** Footer *)

(** The provenance graph, as far as the driver reads it: the set of the
    identifiers of the parsed artifacts. *)
Record ProvDAG := {
  _parsed_artifact_uuids : gset string
}.

(** One turn of the loop of [build_footer] that pairs the identifiers.
    Indexing a list out of range raises in Python: the turn then yields
    [None], and so does the loop. *)
Definition footer_pairs_step (uuids : list string) (u_len : nat)
    (acc : option (list string)) (idx : nat) : option (list string) :=
  pairs ← acc;
  if decide (Z.of_nat idx = (Z.of_nat u_len - 1)%Z)
  then a ← uuids !! idx; Some (pairs ++ ["# " +:+ a])
  else a ← uuids !! idx; b ← uuids !! (idx + 1);
       Some (pairs ++ ["# " +:+ a +:+ " " +:+ Py.TAB +:+ " " +:+ b]).

Definition footer_pairs (uuids : list string) : option (list string) :=
  let u_len := length uuids in
  foldl (footer_pairs_step uuids u_len) (Some []) (Py.range 0 u_len 2).

Definition footer_note : string :=
  "# The following QIIME 2 Results were parsed to produce this script:".

Definition build_footer (dag : ProvDAG) (boundary : string)
  : option (list string) :=
  let footer := [] in
  let uuids := Py.sorted (elements (_parsed_artifact_uuids dag)) in
  pairs ← footer_pairs uuids;
  let footer := footer ++ [boundary] in
  let footer := footer ++ [footer_note] in
  let footer := footer ++ pairs in
  let footer := footer ++ [boundary] in
  let footer := footer ++ [""] in
  Some footer.

(** ** Comment wrapping: [textwrap.wrap]

    [comment] calls [textwrap.wrap(line, 79, break_long_words=False,
    initial_indent='# ', subsequent_indent='# ')]; every other option of
    the wrapper keeps its default ([expand_tabs], [replace_whitespace],
    [drop_whitespace] and [break_on_hyphens] on, [fix_sentence_endings]
    off, [tabsize] 8, no [max_lines]).  The module follows the wrapper
    under these options. *)

Module TextWrap.

Definition code (c : ascii) : nat := nat_of_ascii c.

(** [textwrap._whitespace]: tab, line feed, vertical tab, form feed,
    carriage return and space. *)
Definition is_whitespace (c : ascii) : bool :=
  ((9 <=? code c) && (code c <=? 13)) || (code c =? 32).

(** The classes [\d] and [\w] of [re] on the code points below 256. *)
Definition is_digit (c : ascii) : bool :=
  (48 <=? code c) && (code c <=? 57).

Definition is_word (c : ascii) : bool :=
  let n := code c in
  is_digit c
  || ((65 <=? n) && (n <=? 90)) || ((97 <=? n) && (n <=? 122))
  || (n =? 95)
  || (n =? 170) || (n =? 178) || (n =? 179) || (n =? 181)
  || (n =? 185) || (n =? 186) || ((188 <=? n) && (n <=? 190))
  || ((192 <=? n) && (n <=? 214)) || ((216 <=? n) && (n <=? 246))
  || (248 <=? n).

(** [letter]: a word character that is no digit.  [word_punct]: a word
    character, or one of the exclamation mark, the double and the single
    quote, the ampersand, the full stop, the comma and the question
    mark. *)
Definition is_letter (c : ascii) : bool := is_word c && negb (is_digit c).

Definition is_word_punct (c : ascii) : bool :=
  let n := code c in
  is_word c || (n =? 33) || (n =? 34) || (n =? 39) || (n =? 38)
  || (n =? 46) || (n =? 44) || (n =? 63).

Definition is_hyphen (c : ascii) : bool := code c =? 45.

Fixpoint take (n : nat) (s : string) : string :=
  match n, s with
  | S n', String c s' => String c (take n' s')
  | _, _ => ""
  end.

Fixpoint drop (n : nat) (s : string) : string :=
  match n, s with
  | S n', String c s' => drop n' s'
  | _, _ => s
  end.

Fixpoint spaces (n : nat) : string :=
  match n with
  | 0 => ""
  | S n' => String " " (spaces n')
  end.

(** [text.expandtabs(8)]: [col] is the column of the next character,
    reset by a line feed or a carriage return. *)
Fixpoint expandtabs_from (col : nat) (s : string) : string :=
  match s with
  | "" => ""
  | String c s' =>
      if code c =? 9
      then let incr := 8 - col mod 8 in
           spaces incr +:+ expandtabs_from (col + incr) s'
      else String c
             (expandtabs_from
                (if (code c =? 10) || (code c =? 13) then 0 else S col) s')
  end.

(** [text.translate(unicode_whitespace_trans)]. *)
Fixpoint translate_whitespace (s : string) : string :=
  match s with
  | "" => ""
  | String c s' =>
      String (if is_whitespace c then " "%char else c)
             (translate_whitespace s')
  end.

Definition _munge_whitespace (text : string) : string :=
  translate_whitespace (expandtabs_from 0 text).

(** *** The chunk pattern [wordsep_re]

    A chunk is a run of whitespace, a run of two or more hyphens
    between words, or a word, which stops after a hyphen inside a
    compound, before whitespace or the end of the text, or before such
    a run of hyphens.  [back] is the text before the position, last
    character first, as the lookbehinds read it. *)

(** [(?= letter -? letter)] *)
Definition ahead_letters (s : string) : bool :=
  match s with
  | String a (String b s') =>
      is_letter a
      && ((is_hyphen b
           && match s' with String c _ => is_letter c | "" => false end)
          || is_letter b)
  | _ => false
  end.

(** [(?<= letter{2}-) | (?<= letter-letter-)], the hyphen itself not
    in [back]. *)
Definition behind_letters (back : list ascii) : bool :=
  match back with
  | a :: b :: rest =>
      is_letter a
      && (is_letter b
          || (is_hyphen b
              && match rest with c :: _ => is_letter c | [] => false end))
  | _ => false
  end.

(** [(?<= word_punct)] *)
Definition behind_word_punct (back : list ascii) : bool :=
  match back with
  | a :: _ => is_word_punct a
  | [] => false
  end.

Fixpoint hyphens (s : string) : nat :=
  match s with
  | String c s' => if is_hyphen c then S (hyphens s') else 0
  | "" => 0
  end.

(** [-{2,}(?=\w)] at the head of [s]: the length of the run. *)
Definition dash_ahead (s : string) : option nat :=
  let k := hyphens s in
  if (2 <=? k)
     && match drop k s with String c _ => is_word c | "" => false end
  then Some k else None.

Fixpoint whitespace_run (s : string) : nat :=
  match s with
  | String c s' => if is_whitespace c then S (whitespace_run s') else 0
  | "" => 0
  end.

(** The lazy run of a word after its first character: the number of
    characters it still takes. *)
Fixpoint word_rest (back : list ascii) (s : string) : nat :=
  match s with
  | "" => 0
  | String c s' =>
      if is_hyphen c && behind_letters back && ahead_letters s' then 1
      else if is_whitespace c then 0
      else if behind_word_punct back && bool_decide (is_Some (dash_ahead s))
      then 0
      else S (word_rest (c :: back) s')
  end.

(** The length of the match of [wordsep_re] at the head of [s]. *)
Definition next_chunk_len (back : list ascii) (s : string) : nat :=
  match s with
  | "" => 0
  | String c s' =>
      if is_whitespace c then S (whitespace_run s')
      else
        match (if behind_word_punct back then dash_ahead s else None) with
        | Some k => k
        | None => S (word_rest (c :: back) s')
        end
  end.

Definition chars_rev (s : string) : list ascii :=
  reverse (list_ascii_of_string s).

(** [wordsep_re.split(text)] without its empty pieces: the matches tile
    the text, so the pieces between them are all empty. *)
Fixpoint split_from (fuel : nat) (back : list ascii) (s : string)
  : list string :=
  match fuel with
  | 0 => []
  | S fuel' =>
      match s with
      | "" => []
      | _ =>
          let n := next_chunk_len back s in
          take n s :: split_from fuel' (chars_rev (take n s) ++ back)
                                 (drop n s)
      end
  end.

Definition _split (text : string) : list string :=
  split_from (Py.len text) [] text.

Definition _split_chunks (text : string) : list string :=
  _split (_munge_whitespace text).

(** [chunk.strip() == ''] *)
Definition blank (chunk : string) : bool :=
  bool_decide (Py.strip chunk = "").

(** The inner loop of [_wrap_chunks]: the chunks that fit go to the
    current line.  The source pops them off the reversed list; here the
    list is in text order and read from its head. *)
Fixpoint fill_line (width : nat) (cur_line : list string) (cur_len : nat)
    (chunks : list string) : list string * nat * list string :=
  match chunks with
  | [] => (cur_line, cur_len, [])
  | c :: rest =>
      if cur_len + Py.len c <=? width
      then fill_line width (cur_line ++ [c]) (cur_len + Py.len c) rest
      else (cur_line, cur_len, chunks)
  end.

(** [_handle_long_word] with [break_long_words] off: the word goes
    whole onto an empty line and stays where it is otherwise. *)
Definition _handle_long_word (chunks cur_line : list string)
  : list string * list string :=
  match chunks with
  | c :: rest => if Py.truthy cur_line then (chunks, cur_line)
                 else (rest, cur_line ++ [c])
  | [] => (chunks, cur_line)
  end.

Definition drop_last_blank (cur_line : list string) : list string :=
  match last cur_line with
  | Some c => if blank c then removelast cur_line else cur_line
  | None => cur_line
  end.

(** One turn of the outer loop of [_wrap_chunks], entered with chunks
    left: the lines and the chunks as the turn leaves them. *)
Definition wrap_line (width_ : nat)
    (initial_indent subsequent_indent : string)
    (lines chunks : list string) : list string * list string :=
  let indent :=
    if Py.truthy lines then subsequent_indent else initial_indent in
  let width := width_ - Py.len indent in
  let chunks :=
    match chunks with
    | first :: rest =>
        if blank first && Py.truthy lines then rest else chunks
    | [] => chunks
    end in
  let '(cur_line, cur_len, chunks) := fill_line width [] 0 chunks in
  let '(chunks, cur_line) :=
    match chunks with
    | c :: _ =>
        if width <? Py.len c
        then _handle_long_word chunks cur_line
        else (chunks, cur_line)
    | [] => (chunks, cur_line)
    end in
  let cur_line := drop_last_blank cur_line in
  let lines :=
    if Py.truthy cur_line
    then lines ++ [indent +:+ Py.cat cur_line]
    else lines in
  (lines, chunks).

(** The outer loop of [_wrap_chunks]; [None] when the fuel ends before
    the chunks do. *)
Fixpoint wrap_loop (fuel : nat) (width_ : nat)
    (initial_indent subsequent_indent : string)
    (lines chunks : list string) : option (list string) :=
  match chunks with
  | [] => Some lines
  | _ :: _ =>
      match fuel with
      | 0 => None
      | S fuel' =>
          let '(lines, chunks) :=
            wrap_line width_ initial_indent subsequent_indent
                      lines chunks in
          wrap_loop fuel' width_ initial_indent subsequent_indent
                    lines chunks
      end
  end.

Definition _wrap_chunks (width : nat) (initial_indent subsequent_indent : string)
    (chunks : list string) : option (list string) :=
  wrap_loop (length chunks) width initial_indent subsequent_indent [] chunks.

Definition wrap (text : string) (width : nat)
    (initial_indent subsequent_indent : string) : option (list string) :=
  _wrap_chunks width initial_indent subsequent_indent (_split_chunks text).

End TextWrap.

(** ** The action registry, as far as the driver reads it *)

(** The live signature of an action: the names of its inputs, of its
    parameters and of its outputs, in declaration order. *)
Record Signature := {
  inputs : list string;
  parameters : list string;
  outputs : list string
}.

Record ActionCallable := {
  signature : Signature
}.

Record Action := {
  plugin_id : string;
  action_id : string;
  get_action : ActionCallable
}.

(** Modelled from the spec: the record of one import, which the parent
    class declares, is the pair of a module path and a symbol name. *)
Abbreviation ImportRecord := (string * string)%type.

(** ** The driver *)

Section Driver.

(** A usage variable is opaque to the driver, which only asks for its
    interface name. *)
Context {UsageVariable : Type}.
Variable to_interface_name : UsageVariable → string.

(** What the parent class supplies: the indentation unit and the
    rendering of one argument of a call. *)
Context {UsageValue : Type}.
Variable INDENT : string.
Variable _template_input : string → UsageValue → string.

(** [UsageInputs] and [UsageOutputs], in the order of [items()]. *)
Definition UsageInputs : Type := list (string * UsageValue).
Definition UsageOutputs : Type := list (string * UsageVariable).

(** The attributes of a [ReplayPythonUsage] instance. *)
Record ReplayPythonUsage := {
  enable_assertions : bool;
  action_collection_size : Z;
  local_imports : gset string;
  global_imports : gset ImportRecord;
  header : list string;
  recorder : list string;
  footer : list string;
  init_data_refs : gmap string UsageVariable
}.

Definition set_header (self : ReplayPythonUsage) (v : list string) :=
  {| enable_assertions := enable_assertions self;
     action_collection_size := action_collection_size self;
     local_imports := local_imports self;
     global_imports := global_imports self;
     header := v;
     recorder := recorder self;
     footer := footer self;
     init_data_refs := init_data_refs self |}.

Definition set_recorder (self : ReplayPythonUsage) (v : list string) :=
  {| enable_assertions := enable_assertions self;
     action_collection_size := action_collection_size self;
     local_imports := local_imports self;
     global_imports := global_imports self;
     header := header self;
     recorder := v;
     footer := footer self;
     init_data_refs := init_data_refs self |}.

Definition set_footer (self : ReplayPythonUsage) (v : list string) :=
  {| enable_assertions := enable_assertions self;
     action_collection_size := action_collection_size self;
     local_imports := local_imports self;
     global_imports := global_imports self;
     header := header self;
     recorder := recorder self;
     footer := v;
     init_data_refs := init_data_refs self |}.

Definition _reset_state (self : ReplayPythonUsage)
    (reset_global_imports : bool) : ReplayPythonUsage :=
  {| enable_assertions := enable_assertions self;
     action_collection_size := action_collection_size self;
     local_imports := ∅;
     global_imports :=
       if reset_global_imports then ∅ else global_imports self;
     header := [];
     recorder := [];
     footer := [];
     init_data_refs := ∅ |}.

(** The constructor: the attributes are set and the state is reset,
    global imports included.  An argument left out is [None] and takes
    its default, [False] and [2]. *)
Definition __init__ (enable_assertions_ : option bool)
    (action_collection_size_ : option Z) : ReplayPythonUsage :=
  _reset_state
    {| enable_assertions := default false enable_assertions_;
       action_collection_size := default 2%Z action_collection_size_;
       local_imports := ∅;
       global_imports := ∅;
       header := [];
       recorder := [];
       footer := [];
       init_data_refs := ∅ |}
    true.

(** Modelled from the spec: [_add] of the parent class appends the
    lines to the body buffer, its only effect. *)
Definition _add (self : ReplayPythonUsage) (lines : list string)
  : ReplayPythonUsage :=
  set_recorder self (recorder self ++ lines).

(** Modelled from the spec: the statement that imports a record. *)
Definition import_statement (r : ImportRecord) : string :=
  "from " +:+ r.1 +:+ " import " +:+ r.2.

(** Modelled from the spec: [_update_imports] of the parent class
    records an import obligation, and recording it again changes
    nothing. *)
Definition _update_imports (self : ReplayPythonUsage)
    (from_ import_ : string) : ReplayPythonUsage :=
  {| enable_assertions := enable_assertions self;
     action_collection_size := action_collection_size self;
     local_imports :=
       local_imports self ∪ {[ import_statement (from_, import_) ]};
     global_imports := global_imports self ∪ {[ (from_, import_) ]};
     header := header self;
     recorder := recorder self;
     footer := footer self;
     init_data_refs := init_data_refs self |}.

(** [getattr(variables, output)] followed by [to_interface_name()]:
    [None] stands for the [AttributeError] that either of them raises
    when the output has no variable. *)
Fixpoint getattr (variables : UsageOutputs) (output : string)
  : option UsageVariable :=
  match variables with
  | [] => None
  | (k, v) :: rest =>
      if decide (k = output) then Some v else getattr rest output
  end.

(** The list that [_template_outputs] builds before it joins it. *)
Definition output_vars_of (action : Action) (variables : UsageOutputs)
  : list string :=
  let output_vars := [] in
  let action_f := get_action action in
  let output_vars :=
    foldl
      (fun output_vars output =>
         match getattr variables output with
         | Some variable =>
             output_vars ++ [to_interface_name variable]
         | None => output_vars ++ ["_"]
         end)
      output_vars (outputs (signature action_f)) in
  if decide (length output_vars = 1)
  then output_vars ++ [""]
  else output_vars.

Definition _template_outputs (action : Action) (variables : UsageOutputs)
  : string :=
  Py.strip (Py.join ", " (output_vars_of action variables)).

Definition FIXME : string :=
  "# FIXME: The following parameter name was not found in "
  +:+ "your current" +:+ Py.LF +:+ "    # QIIME 2 environment. This may occur "
  +:+ "when the plugin version you have" +:+ Py.LF +:+ "    # installed does "
  +:+ "not match the version used in the original analysis." +:+ Py.LF +:+ " "
  +:+ " # Please see the docs and correct the parameter name "
  +:+ "before running." +:+ Py.LF.

Definition SAVE : string :=
  "# SAVE: comment out the following with '# ' to skip saving "
  +:+ "Results to disk".

Definition _template_action (self : ReplayPythonUsage) (action : Action)
    (input_opts : UsageInputs) (variables : UsageOutputs)
  : ReplayPythonUsage :=
  let action_f := get_action action in
  let output_vars :=
    if bool_decide (Z.of_nat (length variables)
                    > action_collection_size self)%Z
       || bool_decide (Z.of_nat (length (outputs (signature action_f)))
                       > 5)%Z
    then "action_results"
    else _template_outputs action variables in
  let plugin_id := plugin_id action in
  let action_id := action_id action in
  let lines :=
    [output_vars +:+ " = " +:+ plugin_id +:+ "_actions." +:+ action_id
     +:+ "("] in
  let all_inputs :=
    inputs (signature action_f) ++ parameters (signature action_f) in
  let lines :=
    foldl
      (fun lines '(k, v) =>
         let line := "" in
         let line :=
           if bool_decide (k ∉ all_inputs)
           then INDENT +:+ FIXME
           else line in
         let line := line +:+ _template_input k v in
         lines ++ [line])
      lines input_opts in
  let lines := lines ++ [")"] in
  let lines :=
    if bool_decide (Z.of_nat (length variables)
                    > action_collection_size self)%Z
       || bool_decide
            (Z.of_nat (length (outputs (signature (get_action action))))
             > 5)%Z
    then
      foldl
        (fun lines '(k, v) =>
           let interface_name := to_interface_name v in
           lines ++ [interface_name +:+ " = action_results." +:+ k])
        lines variables
    else lines in
  let lines := lines ++ [SAVE] in
  let lines :=
    foldl
      (fun lines '(k, v) =>
         let interface_name := to_interface_name v in
         lines ++ [interface_name +:+ ".save('" +:+ interface_name
                   +:+ "')"])
      lines variables in
  let lines := lines ++ [""] in
  _add self lines.

(** [comment]: [None] only if the wrapper ran out of fuel. *)
Definition comment (self : ReplayPythonUsage) (line : string)
  : option ReplayPythonUsage :=
  let LINE_LEN := 79 in
  lines ← TextWrap.wrap line LINE_LEN "# " "# ";
  let lines := lines ++ [""] in
  Some (_add self lines).

(** [render] returns the text and the instance as the call leaves it. *)
Definition render (self : ReplayPythonUsage) (flush : bool)
  : string * ReplayPythonUsage :=
  let sorted_imps := Py.sorted (elements (local_imports self)) in
  let self :=
    if Py.truthy (header self)
    then set_header self (header self ++ [""])
    else self in
  let self :=
    if Py.truthy (footer self)
    then set_footer self ([""] ++ footer self)
    else self in
  let sorted_imps :=
    if Py.truthy sorted_imps
    then sorted_imps ++ [""]
    else sorted_imps in
  let rendered :=
    Py.join Py.LF
      (header self ++ sorted_imps ++ recorder self ++ footer self) in
  let self := if flush then _reset_state self false else self in
  (rendered, self).

Definition header_boundary : string := "# " +:+ Py.mul "-" 77.

(** The method [build_footer]: [None] if the footer builder fails. *)
Definition build_footer_method (self : ReplayPythonUsage) (dag : ProvDAG)
  : option ReplayPythonUsage :=
  lines ← build_footer dag header_boundary;
  Some (set_footer self (footer self ++ lines)).

End Driver.

(** ** Reading the rendered lines

    The functions below are not part of the driver: the properties
    further down are stated with them. *)

(** The identifier lines, two identifiers a line. *)
Fixpoint pair_up (uuids : list string) : list string :=
  match uuids with
  | a :: b :: rest =>
      ("# " +:+ a +:+ " " +:+ Py.TAB +:+ " " +:+ b) :: pair_up rest
  | [a] => ["# " +:+ a]
  | [] => []
  end.

Section Lines.

Context {UsageVariable : Type}.
Variable to_interface_name : UsageVariable → string.
Context {UsageValue : Type}.
Variable INDENT : string.
Variable _template_input : string → UsageValue → string.

(** The choice of the collective handle, from the threshold, the number
    of known outputs and the number of declared outputs. *)
Definition collective (threshold : Z) (known declared : nat) : bool :=
  bool_decide (Z.of_nat known > threshold)%Z
  || bool_decide (Z.of_nat declared > 5)%Z.

(** The line that opens the call, for a left-hand side. *)
Definition call_line (handle : string) (action : Action) : string :=
  handle +:+ " = " +:+ plugin_id action +:+ "_actions."
  +:+ action_id action +:+ "(".

(** The names that the live signature accepts. *)
Definition all_inputs (action : Action) : list string :=
  inputs (signature (get_action action))
  ++ parameters (signature (get_action action)).

(** The line of one entry of the inputs: the argument, after the
    warning when the signature does not know its name. *)
Definition argument_line (action : Action) (kv : string * UsageValue)
  : string :=
  (if bool_decide (kv.1 ∈ all_inputs action) then ""
   else INDENT +:+ FIXME)
  +:+ _template_input kv.1 kv.2.

(** The line that takes one output out of the collective handle. *)
Definition extraction_line (kv : string * UsageVariable) : string :=
  to_interface_name kv.2 +:+ " = action_results." +:+ kv.1.

(** The statement that saves one output. *)
Definition save_line (kv : string * UsageVariable) : string :=
  to_interface_name kv.2 +:+ ".save('" +:+ to_interface_name kv.2
  +:+ "')".

(** The name bound to one declared output. *)
Definition binding (variables : list (string * UsageVariable))
    (output : string) : string :=
  match getattr variables output with
  | Some variable => to_interface_name variable
  | None => "_"
  end.

End Lines.

(** [kept] is [chunks] without some of its blank chunks: what the lines
    of a wrapped text hold of the chunks of the text. *)
Inductive drops_blank : list string → list string → Prop :=
  | drops_blank_nil : drops_blank [] []
  | drops_blank_keep c chunks kept :
      drops_blank chunks kept → drops_blank (c :: chunks) (c :: kept)
  | drops_blank_skip c chunks kept :
      TextWrap.blank c = true →
      drops_blank chunks kept → drops_blank (c :: chunks) kept.

(** A line of [width] columns at most after its indent, unless it is a
    single chunk that no line can hold. *)
Definition fits (width : nat) (group : list string) : Prop :=
  group ≠ []
  ∧ (Py.len (Py.cat group) ≤ width
     ∨ ∃ c, group = [c] ∧ width < Py.len c ∧ TextWrap.blank c = false).

Section Reading.

Context {UsageVariable : Type}.

(** The import block of [render]: the sorted local imports, before the
    blank line that closes the block. *)
Definition import_block (self : @ReplayPythonUsage UsageVariable)
  : list string :=
  Py.sorted (elements (local_imports self)).

(** A sequence of calls of [_update_imports]. *)
Definition record_imports (self : @ReplayPythonUsage UsageVariable)
    (records : list ImportRecord) : @ReplayPythonUsage UsageVariable :=
  foldl (fun self r => _update_imports self r.1 r.2) self records.

End Reading.

(** A driver whose header holds the shebang line, for the examples; its
    usage variables are their own interface names. *)
Definition with_shebang : @ReplayPythonUsage string :=
  set_header (__init__ None None) ["#!/usr/bin/env python"].

(** Two actions for the examples.  The usage variables of the examples
    are their own interface names, and an argument is rendered as an
    indented keyword argument. *)
Definition summarize : Action :=
  {| plugin_id := "feature_table";
     action_id := "summarize";
     get_action :=
       {| signature :=
            {| inputs := ["table"];
               parameters := ["sample_metadata"];
               outputs := ["visualization"] |} |} |}.

Definition core_metrics : Action :=
  {| plugin_id := "diversity";
     action_id := "core_metrics";
     get_action :=
       {| signature :=
            {| inputs := ["table"];
               parameters := ["sampling_depth"; "metadata"];
               outputs :=
                 ["rarefied_table"; "observed_features_vector";
                  "shannon_vector"; "evenness_vector";
                  "jaccard_distance_matrix"; "bray_curtis_distance_matrix";
                  "jaccard_pcoa_results"] |} |} |}.

Definition keyword_argument (k v : string) : string :=
  "    " +:+ k +:+ "=" +:+ v +:+ ",".

(** A provenance graph with three parsed artifacts, for the examples. *)
Definition dag3 : ProvDAG :=
  {| _parsed_artifact_uuids := {[ "b2"; "a1"; "c3" ]} |}.

(** ** Header *)

(** [s.split('\n')]: the pieces between the line feeds; there is always at
    least one piece. *)
Fixpoint split_lf (s : string) : list string :=
  match s with
  | "" => [""]
  | String c s' =>
      if Ascii.eqb c "010" then "" :: split_lf s'
      else
        match split_lf s' with
        | piece :: pieces => String c piece :: pieces
        | [] => [String c ""]
        end
  end.

(** The characters of a string, each as a string: what iterating a
    string yields. *)
Fixpoint chars (s : string) : list string :=
  match s with
  | "" => []
  | String c s' => String c "" :: chars s'
  end.

(** The argument [copyright] of [build_header]: the signature announces a
    string, the driver passes a list of lines; [list.extend] iterates
    either. *)
Inductive StrOrLines :=
  | OfStr (s : string)
  | OfLines (lines : list string).

Definition truthy_arg (x : StrOrLines) : bool :=
  match x with
  | OfStr s => bool_decide (s ≠ "")
  | OfLines lines => Py.truthy lines
  end.

Definition iterate (x : StrOrLines) : list string :=
  match x with
  | OfStr s => chars s
  | OfLines lines => lines
  end.

(** What [build_header] reads of its environment: the version of the
    installed package and the two renderings of the current time,
    [strftime("%I:%M:%S %p")] and [strftime("%d %b, %Y")]. *)
Record HeaderEnv := {
  vzn : string;
  ts_time : string;
  ts_date : string
}.

Definition attribution_line (env : HeaderEnv) : string :=
  "# Auto-generated by qiime2 v." +:+ vzn env +:+ " at "
  +:+ ts_time env +:+ " on " +:+ ts_date env.

Definition support_line : string :=
  "# For User Support, post to the QIIME2 Forum at "
  +:+ "https://forum.qiime2.org.".

Definition build_header (env : HeaderEnv) (shebang boundary : string)
    (copyright : StrOrLines) (extra_text : list string) : list string :=
  let header := [] in
  let header :=
    if bool_decide (shebang ≠ "") then header ++ [shebang] else header in
  let header :=
    if bool_decide (boundary ≠ "") then header ++ [boundary] else header in
  let header := header ++ [attribution_line env] in
  let header :=
    if truthy_arg copyright then header ++ iterate copyright else header in
  let header := header ++ [support_line] in
  let header :=
    if Py.truthy extra_text then header ++ extra_text else header in
  let header :=
    if bool_decide (boundary ≠ "") then header ++ [boundary] else header in
  header.

Section HeaderMethod.

Context {UsageVariable : Type}.

Definition shebang : string := "#!/usr/bin/env python".

(** The method [build_header]; [copyright_note] and [python_howto] are
    the texts of the two asset files, which the class splits into
    lines. *)
Definition build_header_method (env : HeaderEnv)
    (copyright_note python_howto : string)
    (self : @ReplayPythonUsage UsageVariable)
  : @ReplayPythonUsage UsageVariable :=
  let copyright := split_lf copyright_note in
  let how_to := split_lf python_howto in
  set_header self
    (header self
     ++ build_header env shebang header_boundary (OfLines copyright) how_to).

End HeaderMethod.

(** A header environment for the examples. *)
Definition env0 : HeaderEnv :=
  {| vzn := "2023.5.0"; ts_time := "09:15:00 AM"; ts_date := "01 Jun, 2023" |}.

(** A string without any whitespace character. *)
Fixpoint no_space (s : string) : bool :=
  match s with
  | "" => true
  | String c s' => negb (Py.isspace c) && no_space s'
  end.

(** A string of whitespace of the wrapper only, and a string whose only
    whitespace of the wrapper is the space. *)
Fixpoint only_whitespace (s : string) : bool :=
  match s with
  | "" => true
  | String c s' => TextWrap.is_whitespace c && only_whitespace s'
  end.

Fixpoint plain (s : string) : bool :=
  match s with
  | "" => true
  | String c s' =>
      (negb (TextWrap.is_whitespace c) || (TextWrap.code c =? 32))
      && plain s'
  end.

(** ** Loading metadata and importing data *)

(** The double quote. *)
Definition DQUOTE : string := String "034" "".

Definition NOTE : string :=
  "NOTE: You may substitute already-loaded Metadata for the "
  +:+ "following, or cast a pandas.DataFrame to Metadata as needed.".

Definition SAVE_ONE : string :=
  "# SAVE: comment out the following with '# ' to skip saving this"
  +:+ " Result to disk".

(** [repr_raw_variable_name]: a value whose [repr] is the value itself,
    without quotes. *)
Record repr_raw_variable_name := {
  value : string
}.

Definition repr_raw (r : repr_raw_variable_name) : string := value r.

(** The argument [view_type] of [import_from_format]: [None], a string,
    or a format. *)
Inductive ViewType (Format : Type) :=
  | ViewNone
  | ViewStr (s : string)
  | ViewFormat (fmt : Format).

Arguments ViewNone {Format}.
Arguments ViewStr {Format} s.
Arguments ViewFormat {Format} fmt.

Section Hooks.

Context {UsageVariable : Type}.
Variable to_interface_name : UsageVariable → string.
Variable INDENT : string.

(** What the parent classes do in the two hooks: they build the variable
    and may change the driver. *)
Context {Factory : Type}.
Variable super_init_metadata :
  @ReplayPythonUsage UsageVariable → string → Factory →
  UsageVariable * @ReplayPythonUsage UsageVariable.

Context {Format : Type}.
Variable usage_import_from_format :
  @ReplayPythonUsage UsageVariable → string → string → UsageVariable →
  ViewType Format → UsageVariable * @ReplayPythonUsage UsageVariable.

(** The name of a format, the module it can be traced to, if any, and
    [repr] on strings. *)
Variable format_name : Format → string.
Variable _canonical_module : Format → option string.
Variable repr : string → string.

(** [init_metadata]; without a file name [dumped_md_fn] is the empty
    string.  [None] only if the wrapper of the note ran out of fuel. *)
Definition init_metadata (self : @ReplayPythonUsage UsageVariable)
    (name : string) (factory : Factory) (dumped_md_fn : string)
  : option (UsageVariable * @ReplayPythonUsage UsageVariable) :=
  let '(var, self) := super_init_metadata self name factory in
  let self := _update_imports self "qiime2" "Metadata" in
  let input_fp := to_interface_name var in
  if bool_decide (dumped_md_fn ≠ "")
  then
    let lines :=
      [input_fp +:+ " = Metadata.load(" +:+ DQUOTE +:+ dumped_md_fn
       +:+ ".tsv" +:+ DQUOTE +:+ ")"] in
    Some (var, _add self lines)
  else
    self ← comment self NOTE;
    let lines := [input_fp +:+ " = Metadata.load(<your metadata filepath>)"] in
    Some (var, _add self lines).

Definition import_from_format (self : @ReplayPythonUsage UsageVariable)
    (name semantic_type : string) (variable : UsageVariable)
    (view_type : ViewType Format)
  : UsageVariable * @ReplayPythonUsage UsageVariable :=
  let '(imported_var, self) :=
    usage_import_from_format self name semantic_type variable view_type in
  let interface_name := to_interface_name imported_var in
  let import_fp := {| value := "<your data here>" |} in
  let lines :=
    [interface_name +:+ " = Artifact.import_data(";
     INDENT +:+ repr semantic_type +:+ ",";
     INDENT +:+ repr_raw import_fp +:+ ","] in
  let '(self, lines) :=
    match view_type with
    | ViewNone => (self, lines)
    | ViewStr s =>
        let view_type := repr s in
        (self, lines ++ [INDENT +:+ view_type +:+ ","])
    | ViewFormat fmt =>
        let import_path := _canonical_module fmt in
        let view_type := format_name fmt in
        match import_path with
        | Some path =>
            (_update_imports self path view_type,
             lines ++ [INDENT +:+ view_type +:+ ","])
        | None =>
            let view_type := repr view_type in
            (self, lines ++ [INDENT +:+ view_type +:+ ","])
        end
    end in
  let lines :=
    lines ++ [")"; SAVE_ONE;
              interface_name +:+ ".save('" +:+ interface_name +:+ "')";
              ""] in
  let self := _update_imports self "qiime2" "Artifact" in
  (imported_var, _add self lines).

End Hooks.

(** Parent hooks for the examples: the variable is named after the
    argument [name] and the driver is left as it is; a format is its own
    name and only [DirFmt] can be traced; [repr] puts single quotes. *)
Definition parent_init_metadata (self : @ReplayPythonUsage string)
    (name : string) (factory : unit) : string * @ReplayPythonUsage string :=
  (name, self).

Definition parent_import_from_format (self : @ReplayPythonUsage string)
    (name semantic_type variable : string) (view_type : ViewType string)
  : string * @ReplayPythonUsage string :=
  (name, self).

Definition module_of (fmt : string) : option string :=
  if decide (fmt = "DirFmt") then Some "q2_types.feature_data" else None.

Definition quoted (s : string) : string := "'" +:+ s +:+ "'".

(** ** Where a text may be cut

    The functions below say, in terms of the characters of the text, what
    a chunk of the wrapper is; the driver does not call them. *)

Fixpoint last_char (s : string) : option ascii :=
  match s with
  | "" => None
  | String c s' =>
      match last_char s' with
      | Some x => Some x
      | None => Some c
      end
  end.

(** A cut between [left] and the text [right] that follows it is next to
    whitespace, or between a hyphen and a word character, or before two
    hyphens. *)
Definition cut_ok (left right : string) : bool :=
  match last_char left, right with
  | Some a, String b rest =>
      TextWrap.is_whitespace a
      || TextWrap.is_whitespace b
      || (TextWrap.is_hyphen a && TextWrap.is_word b)
      || (TextWrap.is_hyphen b
          && match rest with
             | String b' _ => TextWrap.is_hyphen b'
             | "" => false
             end)
  | _, _ => false
  end.

(** No piece is empty, and each piece but the last ends at such a cut. *)
Fixpoint cuts_ok (chunks : list string) : bool :=
  match chunks with
  | [] => true
  | c :: rest =>
      match rest with
      | [] => bool_decide (c ≠ "")
      | _ :: _ => cut_ok c (Py.cat rest)
      end
      && cuts_ok rest
  end.

Fixpoint whitespace_free (s : string) : bool :=
  match s with
  | "" => true
  | String c s' => negb (TextWrap.is_whitespace c) && whitespace_free s'
  end.

(** * Properties *)

(** ** Strings and lists *)

Lemma app_cons (c : ascii) (a b : string) :
  String c a +:+ b = String c (a +:+ b).
Proof. reflexivity. Qed.

Lemma app_nil_s (b : string) : "" +:+ b = b.
Proof. reflexivity. Qed.

Lemma len_app (a b : string) : Py.len (a +:+ b) = Py.len a + Py.len b.
Proof.
  induction a as [|c a IH]; [done|]. rewrite app_cons. simpl. by rewrite IH.
Qed.

Lemma app_empty_r (a : string) : a +:+ "" = a.
Proof. induction a as [|c a IH]; [done|]. by rewrite app_cons, IH. Qed.

Lemma app_assoc_s (a b c : string) : (a +:+ b) +:+ c = a +:+ (b +:+ c).
Proof. induction a as [|x a IH]; [done|]. by rewrite !app_cons, IH. Qed.

(** A loop that appends one line per element builds the lines of a map. *)
Lemma foldl_snoc_map {A} (g : list string → A → list string)
    (f : A → string) (l : list A) (init : list string) :
  (∀ lines x, g lines x = lines ++ [f x]) →
  foldl g init l = init ++ map f l.
Proof.
  intros Hg. revert init. induction l as [|x l IH]; intros init; simpl.
  - by rewrite app_nil_r.
  - rewrite IH, Hg, <- app_assoc. done.
Qed.

(** ** [sorted] *)

Lemma sorted_Permutation (xs : list string) : Py.sorted xs ≡ₚ xs.
Proof. apply merge_sort_Permutation. Qed.

Lemma sorted_StronglySorted (xs : list string) :
  StronglySorted String.le (Py.sorted xs).
Proof. apply StronglySorted_merge_sort; apply _. Qed.

(** The result does not depend on the order in which a set is read. *)
Lemma sorted_unique (xs ys : list string) :
  xs ≡ₚ ys → Py.sorted xs = Py.sorted ys.
Proof.
  intros Hp. apply (StronglySorted_unique String.le);
    try apply sorted_StronglySorted.
  by rewrite !sorted_Permutation.
Qed.

Lemma sorted_set_NoDup (X : gset string) : NoDup (Py.sorted (elements X)).
Proof. rewrite sorted_Permutation. apply NoDup_elements. Qed.

Lemma sorted_set_length (X : gset string) :
  length (Py.sorted (elements X)) = size X.
Proof. by rewrite sorted_Permutation. Qed.

Lemma sorted_set_elem_of (X : gset string) (x : string) :
  x ∈ Py.sorted (elements X) ↔ x ∈ X.
Proof. rewrite sorted_Permutation. apply elem_of_elements. Qed.

(** ** The footer *)

Lemma pair_up_ind (P : list string → Prop) :
  P [] → (∀ a, P [a]) → (∀ a b rest, P rest → P (a :: b :: rest)) →
  ∀ l, P l.
Proof.
  intros H0 H1 H2 l.
  assert (P l ∧ ∀ a, P (a :: l)) as [? _]; [|done].
  induction l as [|x l [IH1 IH2]]; split; auto.
Qed.

Lemma pair_up_length (uuids : list string) :
  length (pair_up uuids) = (length uuids + 1) / 2.
Proof.
  induction uuids as [|a|a b rest IH] using pair_up_ind; [done..|].
  cbn [pair_up length]. rewrite IH.
  replace (S (S (length rest)) + 1) with ((length rest + 1) + 1 * 2) by lia.
  rewrite Nat.div_add by lia. lia.
Qed.

Lemma pair_up_lookup_pair (uuids : list string) (i : nat) (a b : string) :
  uuids !! (2 * i) = Some a → uuids !! (2 * i + 1) = Some b →
  pair_up uuids !! i = Some ("# " +:+ a +:+ " " +:+ Py.TAB +:+ " " +:+ b).
Proof.
  revert i. induction uuids as [|x|x y rest IH] using pair_up_ind;
    intros i Ha Hb.
  - done.
  - destruct i; [done|]. replace (2 * S i) with (S (S (2 * i))) in Ha by lia.
    done.
  - destruct i as [|i]; simpl in *; [by simplify_eq|].
    replace (i + S (i + 0)) with (S (2 * i)) in * by lia.
    simpl in *. apply IH; [done|].
    by replace (2 * i + 1) with (i + (i + 0) + 1) by lia.
Qed.

Lemma pair_up_lookup_single (uuids : list string) (i : nat) (a : string) :
  uuids !! (2 * i) = Some a → uuids !! (2 * i + 1) = None →
  pair_up uuids !! i = Some ("# " +:+ a).
Proof.
  revert i. induction uuids as [|x|x y rest IH] using pair_up_ind;
    intros i Ha Hb.
  - done.
  - destruct i; [by simplify_eq/=|].
    replace (2 * S i) with (S (S (2 * i))) in Ha by lia. done.
  - destruct i as [|i]; simpl in *; [done|].
    replace (i + S (i + 0)) with (S (2 * i)) in * by lia.
    simpl in *. apply IH; [done|].
    by replace (2 * i + 1) with (i + (i + 0) + 1) by lia.
Qed.

Lemma footer_pairs_step_last (uuids pairs : list string) (idx : nat)
    (a : string) :
  S idx = length uuids → uuids !! idx = Some a →
  footer_pairs_step uuids (length uuids) (Some pairs) idx
  = Some (pairs ++ ["# " +:+ a]).
Proof.
  intros Hi Ha. unfold footer_pairs_step. simpl.
  rewrite decide_True by lia. by rewrite Ha.
Qed.

Lemma footer_pairs_step_pair (uuids pairs : list string) (idx : nat)
    (a b : string) :
  uuids !! idx = Some a → uuids !! (idx + 1) = Some b →
  footer_pairs_step uuids (length uuids) (Some pairs) idx
  = Some (pairs ++ ["# " +:+ a +:+ " " +:+ Py.TAB +:+ " " +:+ b]).
Proof.
  intros Ha Hb. unfold footer_pairs_step. simpl.
  apply lookup_lt_Some in Hb as Hlt.
  rewrite decide_False by lia. by rewrite Ha, Hb.
Qed.

(** The loop over the even indices, started anywhere in the list: it never
    indexes out of range and builds the lines of [pair_up]. *)
Lemma footer_pairs_from (fuel : nat) (pre suf acc : list string) :
  length suf ≤ fuel →
  foldl (footer_pairs_step (pre ++ suf) (length (pre ++ suf))) (Some acc)
    (Py.range_from fuel (length pre) (length (pre ++ suf)) 2)
  = Some (acc ++ pair_up suf).
Proof.
  revert pre suf acc. induction fuel as [|fuel IH]; intros pre suf acc Hf.
  - destruct suf; [|simpl in Hf; lia]. simpl. by rewrite app_nil_r.
  - cbn [Py.range_from].
    destruct suf as [|a [|b rest]].
    + rewrite app_nil_r, Nat.ltb_irrefl. simpl. by rewrite app_nil_r.
    + replace (length pre <? length (pre ++ [a])) with true
        by (symmetry; apply Nat.ltb_lt; rewrite length_app; simpl; lia).
      cbn [foldl].
      rewrite (footer_pairs_step_last _ _ _ a).
      * destruct fuel; [done|]. cbn [Py.range_from].
        replace (length pre + 2 <? length (pre ++ [a])) with false
          by (symmetry; apply Nat.ltb_ge; rewrite length_app; simpl; lia).
        done.
      * rewrite length_app. simpl. lia.
      * by rewrite lookup_app_r, Nat.sub_diag by lia.
    + replace (length pre <? length (pre ++ a :: b :: rest)) with true
        by (symmetry; apply Nat.ltb_lt; rewrite length_app; simpl; lia).
      cbn [foldl].
      rewrite (footer_pairs_step_pair _ _ _ a b).
      * specialize (IH (pre ++ [a; b]) rest
          (acc ++ ["# " +:+ a +:+ " " +:+ Py.TAB +:+ " " +:+ b])).
        rewrite <- !app_assoc in IH. simpl in IH.
        rewrite (length_app pre [a; b]) in IH. simpl in IH.
        rewrite IH by (simpl in Hf; lia). done.
      * by rewrite lookup_app_r, Nat.sub_diag by lia.
      * rewrite lookup_app_r by lia.
        by replace (length pre + 1 - length pre) with 1 by lia.
Qed.

Lemma footer_pairs_pair_up (uuids : list string) :
  footer_pairs uuids = Some (pair_up uuids).
Proof.
  unfold footer_pairs, Py.range. rewrite Nat.sub_0_r.
  exact (footer_pairs_from (length uuids) [] uuids [] (le_n _)).
Qed.

(** C7. For every set of N source-artifact identifiers, [build_footer]
    returns (it never fails on an index) the boundary line, the
    explanatory line, exactly ceil(N/2) identifier lines, the boundary line
    again and a blank line.  The identifiers run through the lines in
    ascending order without repetition, two a line; when N is odd the
    last line carries the last identifier alone. *)
Theorem build_footer_identifier_lines (dag : ProvDAG) (boundary : string) :
  let uuids := Py.sorted (elements (_parsed_artifact_uuids dag)) in
  let N := size (_parsed_artifact_uuids dag) in
  ∃ id_lines : list string,
    build_footer dag boundary
    = Some ([boundary; footer_note] ++ id_lines ++ [boundary; ""])
    ∧ length id_lines = (N + 1) / 2
    ∧ length uuids = N
    ∧ (∀ x, x ∈ uuids ↔ x ∈ _parsed_artifact_uuids dag)
    ∧ NoDup uuids
    ∧ StronglySorted String.le uuids
    ∧ (∀ i a b,
         uuids !! (2 * i) = Some a → uuids !! (2 * i + 1) = Some b →
         id_lines !! i
         = Some ("# " +:+ a +:+ " " +:+ Py.TAB +:+ " " +:+ b))
    ∧ (∀ i a,
         uuids !! (2 * i) = Some a → uuids !! (2 * i + 1) = None →
         id_lines !! i = Some ("# " +:+ a)).
Proof.
  intros uuids N. exists (pair_up uuids). repeat split.
  - unfold build_footer. fold uuids. rewrite footer_pairs_pair_up. simpl.
    by rewrite <- app_assoc.
  - rewrite pair_up_length. unfold uuids. by rewrite sorted_set_length.
  - apply sorted_set_length.
  - apply sorted_set_elem_of.
  - apply sorted_set_elem_of.
  - apply sorted_set_NoDup.
  - apply sorted_StronglySorted.
  - apply pair_up_lookup_pair.
  - apply pair_up_lookup_single.
Qed.

Lemma build_footer_identifier_lines_witness :
  ∃ id_lines : list string,
    build_footer dag3 "# --"
    = Some (["# --"; footer_note] ++ id_lines ++ ["# --"; ""])
    ∧ length id_lines = 2
    ∧ id_lines !! 0 = Some ("# a1 " +:+ Py.TAB +:+ " b2")
    ∧ id_lines !! 1 = Some "# c3".
Proof.
  destruct (build_footer_identifier_lines dag3 "# --")
    as (id_lines & Hf & Hlen & _ & _ & _ & _ & Hpair & Hsingle).
  exists id_lines. split; [exact Hf|]. split; [exact Hlen|]. split.
  - apply (Hpair 0 "a1" "b2"); vm_compute; reflexivity.
  - apply (Hsingle 1 "c3"); vm_compute; reflexivity.
Defined.

(** ** Rendering *)

Section RenderProperties.

Context {UsageVariable : Type}.
Implicit Types self : @ReplayPythonUsage UsageVariable.

(** The text that [render] returns, from the state before the call. *)
Lemma render_text self flush :
  (render self flush).1
  = Py.join Py.LF
      ((if Py.truthy (header self) then header self ++ [""] else [])
       ++ (if Py.truthy (import_block self)
           then import_block self ++ [""] else [])
       ++ recorder self
       ++ (if Py.truthy (footer self) then "" :: footer self else [])).
Proof.
  destruct self as [ea acs li gi h r f idr].
  unfold render, import_block. simpl.
  destruct h, f, (Py.sorted (elements li));
    simpl; rewrite ?app_nil_r; reflexivity.
Qed.

(** What a call without flush leaves of the state: the header and the
    footer each grow by a blank line when they are not empty; the other
    attributes are kept. *)
Lemma render_no_flush_state self :
  (render self false).2
  = {| enable_assertions := enable_assertions self;
       action_collection_size := action_collection_size self;
       local_imports := local_imports self;
       global_imports := global_imports self;
       header := if Py.truthy (header self)
                 then header self ++ [""] else header self;
       recorder := recorder self;
       footer := if Py.truthy (footer self)
                 then "" :: footer self else footer self;
       init_data_refs := init_data_refs self |}.
Proof.
  unfold render. destruct self as [ea acs li gi h r f idr]; simpl.
  destruct h, f; reflexivity.
Qed.

Lemma render_flush_state self :
  (render self true).2 = _reset_state self false.
Proof.
  unfold render. destruct self as [ea acs li gi h r f idr]; simpl.
  destruct h, f; reflexivity.
Qed.

(** C5. For every state, [render(flush=True)] leaves the header, the
    body, the footer, the local imports and the diagnostic mapping
    empty, so that a render that follows returns the empty text; the
    global imports are kept as they were, and only
    [_reset_state(reset_global_imports=True)] empties them. *)
Theorem render_flush_clears_local_state self :
  let self' := (render self true).2 in
  header self' = []
  ∧ recorder self' = []
  ∧ footer self' = []
  ∧ local_imports self' = ∅
  ∧ init_data_refs self' = ∅
  ∧ global_imports self' = global_imports self
  ∧ (∀ flush, (render self' flush).1 = "")
  ∧ (∀ flush, (render self' flush).2 = self')
  ∧ global_imports (_reset_state self false) = global_imports self
  ∧ global_imports (_reset_state self true) = ∅.
Proof.
  intros self'. unfold self'. rewrite render_flush_state.
  repeat split. intros [].
  - rewrite render_flush_state. reflexivity.
  - rewrite render_no_flush_state. reflexivity.
Qed.

(** Recording imports only adds to the two import sets. *)
Lemma record_imports_local self (records : list ImportRecord) :
  local_imports (record_imports self records)
  = local_imports self ∪ list_to_set (import_statement <$> records).
Proof.
  revert self. induction records as [|r records IH]; intros self.
  - simpl. set_solver.
  - unfold record_imports in *. cbn [foldl]. rewrite IH.
    destruct r as [m sym]. simpl. set_solver.
Qed.

Lemma record_imports_frame self (records : list ImportRecord) :
  header (record_imports self records) = header self
  ∧ recorder (record_imports self records) = recorder self
  ∧ footer (record_imports self records) = footer self.
Proof.
  revert self. induction records as [|r records IH]; intros self.
  - done.
  - unfold record_imports in *. cbn [foldl].
    destruct (IH (_update_imports self r.1 r.2)) as (-> & -> & ->). done.
Qed.

(** C8. For every state and every sequence of import records recorded
    into it, the import block that [render] puts in the text holds the
    statement of each record exactly once, holds nothing but the
    statements recorded, is in ascending lexical order, and is a
    function of the set of statements alone: neither the repetitions nor
    the order of the records show in it. *)
Theorem render_import_block_sorted_dedup self (records : list ImportRecord) :
  let self' := record_imports self records in
  let block := import_block self' in
  (∀ flush,
     (render self' flush).1
     = Py.join Py.LF
         ((if Py.truthy (header self) then header self ++ [""] else [])
          ++ (if Py.truthy block then block ++ [""] else [])
          ++ recorder self
          ++ (if Py.truthy (footer self) then "" :: footer self else [])))
  ∧ NoDup block
  ∧ StronglySorted String.le block
  ∧ (∀ line,
       line ∈ block
       ↔ line ∈ local_imports self
         ∨ ∃ r, r ∈ records ∧ line = import_statement r)
  ∧ block
    = Py.sorted
        (elements
           (local_imports self
            ∪ list_to_set (import_statement <$> records))).
Proof.
  intros self' block. split; [|split; [|split; [|split]]].
  - intros flush. rewrite render_text. unfold self'.
    destruct (record_imports_frame self records) as (-> & -> & ->). done.
  - apply sorted_set_NoDup.
  - apply sorted_StronglySorted.
  - intros line. unfold block, import_block.
    rewrite sorted_set_elem_of. unfold self'.
    rewrite record_imports_local, elem_of_union, elem_of_list_to_set.
    rewrite list_elem_of_fmap. naive_solver.
  - unfold block, import_block, self'. by rewrite record_imports_local.
Qed.

End RenderProperties.

(** C3. On a driver whose header holds one line, [render(flush=False)]
    changes the state: it appends a blank line to the header it leaves
    behind, so that the same call gives another text the next time. *)
Theorem render_no_flush_grows_header :
  header (render with_shebang false).2 = ["#!/usr/bin/env python"; ""]
  ∧ (render with_shebang false).2 ≠ with_shebang
  ∧ (render with_shebang false).1 = "#!/usr/bin/env python" +:+ Py.LF
  ∧ (render (render with_shebang false).2 false).1
    = "#!/usr/bin/env python" +:+ Py.LF +:+ Py.LF.
Proof.
  split; [reflexivity|]. split; [|split; reflexivity].
  intros H. apply (f_equal header) in H. discriminate H.
Qed.

Lemma render_import_block_sorted_dedup_witness :
  import_block
    (record_imports (__init__ (UsageVariable := string) None None)
       [("qiime2", "Metadata"); ("qiime2", "Artifact");
        ("qiime2", "Metadata")])
  = ["from qiime2 import Artifact"; "from qiime2 import Metadata"].
Proof.
  pose proof (render_import_block_sorted_dedup
                (__init__ (UsageVariable := string) None None)
                [("qiime2", "Metadata"); ("qiime2", "Artifact");
                 ("qiime2", "Metadata")]) as (_ & _ & _ & _ & ->).
  vm_compute. reflexivity.
Defined.

(** ** Output binding *)

Lemma lstrip_cons (c : ascii) (s : string) :
  Py.lstrip (String c s) = if Py.isspace c then Py.lstrip s else String c s.
Proof. reflexivity. Qed.

Lemma lstrip_app_comma (s : string) :
  Py.lstrip (s +:+ ", ") = Py.lstrip s +:+ ", ".
Proof.
  induction s as [|c s IH]; [reflexivity|].
  rewrite app_cons, !lstrip_cons. by destruct (Py.isspace c).
Qed.

Lemma rstrip_app_comma (s : string) : Py.rstrip (s +:+ ", ") = s +:+ ",".
Proof.
  induction s as [|c s IH]; [reflexivity|].
  rewrite !app_cons. cbn [Py.rstrip]. rewrite IH.
  destruct s; reflexivity.
Qed.

(** What [strip] leaves of a name joined to an empty entry. *)
Lemma strip_join_single (name : string) :
  Py.strip (Py.join ", " [name; ""]) = Py.lstrip name +:+ ",".
Proof.
  cbn [Py.join]. unfold Py.strip.
  replace (name +:+ ", " +:+ "") with (name +:+ ", ")
    by (by rewrite app_empty_r).
  by rewrite lstrip_app_comma, rstrip_app_comma.
Qed.

Section BindingProperties.

Context {UsageVariable : Type}.
Variable to_interface_name : UsageVariable → string.
Implicit Types variables : list (string * UsageVariable).

(** The loop of [_template_outputs] binds the declared outputs one by
    one, in their order. *)
Lemma output_vars_of_binding (action : Action) variables :
  output_vars_of to_interface_name action variables
  = let bound :=
      map (binding to_interface_name variables)
          (outputs (signature (get_action action))) in
    if decide (length bound = 1) then bound ++ [""] else bound.
Proof.
  unfold output_vars_of.
  rewrite (foldl_snoc_map _ (binding to_interface_name variables)).
  - done.
  - intros lines o. unfold binding. by destruct (getattr variables o).
Qed.

Lemma getattr_Some variables (o : string) (v : UsageVariable) :
  NoDup variables.*1 → getattr variables o = Some v ↔ (o, v) ∈ variables.
Proof.
  induction variables as [|[k w] variables IH]; intros Hnd.
  - simpl. split; [done|]. by intros ?%elem_of_nil.
  - apply NoDup_cons in Hnd as [Hk Hnd]. cbn [getattr].
    rewrite elem_of_cons. destruct (decide (k = o)) as [->|Hne].
    + split; [intros [= ->]; by left|].
      intros [[= ->]|Hin]; [done|].
      exfalso. apply Hk. apply list_elem_of_fmap. by exists (o, v).
    + rewrite (IH Hnd). split; [by right|].
      intros [[= -> ->]|Hin]; done.
Qed.

(** With one variable per name, the order of the recorded variables
    does not show in a lookup. *)
Lemma getattr_Permutation variables variables' (o : string) :
  NoDup variables.*1 → variables ≡ₚ variables' →
  getattr variables' o = getattr variables o.
Proof.
  intros Hnd Hp.
  assert (NoDup variables'.*1) as Hnd' by by rewrite <- Hp.
  destruct (getattr variables o) as [v|] eqn:Hv.
  - apply getattr_Some; [done|]. rewrite <- Hp. by apply getattr_Some.
  - destruct (getattr variables' o) as [v'|] eqn:Hv'; [|done].
    apply getattr_Some in Hv'; [|done]. rewrite <- Hp in Hv'.
    apply getattr_Some in Hv'; [|done]. congruence.
Qed.

(** C9. For every action and every recorded output set, the sequence
    that [_template_outputs] builds has one entry per declared output,
    in the declared order (and one more, empty, when a single output is
    declared): the entry of an output is the interface name of its
    variable, and the placeholder [_] when the set has no variable for
    it.  The order of the recorded set does not show in the sequence,
    and no input makes the function fail. *)
Theorem template_outputs_declared_order (action : Action) variables :
  let declared := outputs (signature (get_action action)) in
  let seq := output_vars_of to_interface_name action variables in
  length seq = length declared + (if decide (length declared = 1) then 1 else 0)
  ∧ (∀ i o v,
       declared !! i = Some o → getattr variables o = Some v →
       seq !! i = Some (to_interface_name v))
  ∧ (∀ i o,
       declared !! i = Some o → getattr variables o = None →
       seq !! i = Some "_")
  ∧ (∀ variables',
       NoDup variables.*1 → variables ≡ₚ variables' →
       output_vars_of to_interface_name action variables' = seq).
Proof.
  intros declared seq. unfold seq. rewrite output_vars_of_binding.
  fold declared. cbv zeta. rewrite length_map.
  assert (∀ i o, declared !! i = Some o →
    (if decide (length declared = 1)
     then map (binding to_interface_name variables) declared ++ [""]
     else map (binding to_interface_name variables) declared) !! i
    = Some (binding to_interface_name variables o)) as Hlookup.
  { intros i o Hi.
    assert (map (binding to_interface_name variables) declared !! i
            = Some (binding to_interface_name variables o)) as Hm
      by (by rewrite list_lookup_fmap, Hi).
    destruct (decide _); [|done]. by apply lookup_app_l_Some. }
  split; [|split; [|split]].
  - destruct (decide _); rewrite ?length_app, length_map; simpl; lia.
  - intros i o v Hi Hv. rewrite (Hlookup i o Hi). unfold binding.
    by rewrite Hv.
  - intros i o Hi Hv. rewrite (Hlookup i o Hi). unfold binding.
    by rewrite Hv.
  - intros variables' Hnd Hp. rewrite output_vars_of_binding.
    fold declared. cbv zeta. rewrite !length_map.
    assert (map (binding to_interface_name variables') declared
            = map (binding to_interface_name variables) declared) as ->;
      [|done].
    apply map_ext. intros o. unfold binding.
    by rewrite (getattr_Permutation variables variables').
Qed.

(** C2, amended. For every action with exactly one declared output,
    [_template_outputs] builds a sequence of exactly two entries, the
    name bound to the output and the empty string, and returns the name
    followed by a comma: joining puts a comma and a space after the
    name, and trimming removes the space (and any whitespace that leads
    the name), not the comma. *)
Theorem template_outputs_single_output (action : Action) variables
    (o : string) :
  outputs (signature (get_action action)) = [o] →
  output_vars_of to_interface_name action variables
  = [binding to_interface_name variables o; ""]
  ∧ _template_outputs to_interface_name action variables
    = Py.lstrip (binding to_interface_name variables o) +:+ ",".
Proof.
  intros Ho. unfold _template_outputs.
  rewrite output_vars_of_binding, Ho. simpl.
  split; [done|]. apply strip_join_single.
Qed.

End BindingProperties.

(** ** Action invocations *)

Section ActionProperties.

Context {UsageVariable : Type}.
Variable to_interface_name : UsageVariable → string.
Context {UsageValue : Type}.
Variable INDENT : string.
Variable _template_input : string → UsageValue → string.
Implicit Types self : @ReplayPythonUsage UsageVariable.
Implicit Types input_opts : list (string * UsageValue).
Implicit Types variables : list (string * UsageVariable).

Local Abbreviation template_action :=
  (_template_action to_interface_name INDENT _template_input).
Local Abbreviation arg_line := (argument_line INDENT _template_input).

(** The lines that one invocation appends to the body, and nothing else
    of the state changes. *)
Lemma template_action_recorder self (action : Action) input_opts variables :
  let style :=
    collective (action_collection_size self) (length variables)
      (length (outputs (signature (get_action action)))) in
  recorder (template_action self action input_opts variables)
  = recorder self
    ++ [call_line
          (if style then "action_results"
           else _template_outputs to_interface_name action variables)
          action]
    ++ map (arg_line action) input_opts
    ++ [")"]
    ++ (if style then map (extraction_line to_interface_name) variables
        else [])
    ++ [SAVE]
    ++ map (save_line to_interface_name) variables
    ++ [""].
Proof.
  cbv zeta. unfold collective, _template_action, _add.
  cbn [recorder set_recorder]. f_equal.
  rewrite (foldl_snoc_map _ (arg_line action)).
  2:{ intros lines [k v]. unfold argument_line, all_inputs. simpl.
      destruct (decide (k ∈ inputs (signature (get_action action))
                            ++ parameters (signature (get_action action))))
        as [Hin|Hin].
      - by rewrite bool_decide_false, bool_decide_true by auto.
      - by rewrite bool_decide_true, bool_decide_false by auto. }
  rewrite (foldl_snoc_map _ (save_line to_interface_name))
    by (by intros lines [k v]).
  destruct (_ || _).
  - rewrite (foldl_snoc_map _ (extraction_line to_interface_name))
      by (by intros lines [k v]).
    unfold call_line. by rewrite <- !app_assoc.
  - unfold call_line. by rewrite <- !app_assoc.
Qed.

Lemma template_action_frame self (action : Action) input_opts variables :
  set_recorder (template_action self action input_opts variables)
               (recorder self)
  = self.
Proof. by destruct self. Qed.

(** C1. For every call of [_template_action]: when the number of
    recorded output variables exceeds the collection threshold of the
    driver, or the action declares more than five outputs, the call
    line binds the single handle [action_results] and an extraction
    line follows the call for each recorded output; otherwise the call
    line binds the names that [_template_outputs] returns and no
    extraction line follows.  The threshold of a driver built without
    that argument is 2. *)
Theorem template_action_output_style self (action : Action) input_opts
    variables :
  let known := Z.of_nat (length variables) in
  let declared :=
    Z.of_nat (length (outputs (signature (get_action action)))) in
  let body := recorder (template_action self action input_opts variables) in
  ((known > action_collection_size self ∨ declared > 5)%Z →
   body
   = recorder self
     ++ [call_line "action_results" action]
     ++ map (arg_line action) input_opts
     ++ [")"]
     ++ map (extraction_line to_interface_name) variables
     ++ [SAVE]
     ++ map (save_line to_interface_name) variables
     ++ [""])
  ∧ (¬ (known > action_collection_size self ∨ declared > 5)%Z →
     body
     = recorder self
       ++ [call_line (_template_outputs to_interface_name action variables)
                     action]
       ++ map (arg_line action) input_opts
       ++ [")"]
       ++ [SAVE]
       ++ map (save_line to_interface_name) variables
       ++ [""])
  ∧ (∀ enable_assertions_,
       action_collection_size
         (__init__ (UsageVariable := UsageVariable) enable_assertions_ None)
       = 2%Z).
Proof.
  intros known declared body. unfold body.
  rewrite template_action_recorder. cbv zeta. unfold collective.
  fold known declared. split; [|split].
  - intros [H|H].
    + by rewrite bool_decide_true by done.
    + rewrite (bool_decide_true (declared > 5)%Z) by done.
      by rewrite orb_true_r.
  - intros H. rewrite !bool_decide_false by tauto. done.
  - done.
Qed.

(** C4. For every entry of the inputs whose name is neither an input
    nor a parameter of the live signature, the line of the entry is the
    warning comment, which ends in a line feed, followed by the
    argument; the lines before it and all the lines after it (the later
    arguments, the closing line, the extraction lines if any, the save
    block and the blank line) are emitted as for any other call. *)
Theorem template_action_unknown_parameter self (action : Action) input_opts
    variables (i : nat) (k : string) (v : UsageValue) :
  input_opts !! i = Some (k, v) →
  k ∉ inputs (signature (get_action action))
      ++ parameters (signature (get_action action)) →
  ∃ before extraction,
    recorder (template_action self action input_opts variables)
    = recorder self
      ++ before
      ++ [INDENT +:+ FIXME +:+ _template_input k v]
      ++ map (arg_line action) (drop (S i) input_opts)
      ++ [")"]
      ++ extraction
      ++ [SAVE]
      ++ map (save_line to_interface_name) variables
      ++ [""]
    ∧ length before = 1 + i
    ∧ TextWrap.take 8 FIXME = "# FIXME:"
    ∧ TextWrap.drop (Py.len FIXME - 1) FIXME = Py.LF.
Proof.
  intros Hi Hk. rewrite template_action_recorder. cbv zeta.
  set (style := collective _ _ _).
  exists (call_line
            (if style then "action_results"
             else _template_outputs to_interface_name action variables)
            action
          :: map (arg_line action) (take i input_opts)),
         (if style then map (extraction_line to_interface_name) variables
          else []).
  split; [|split; [|split]].
  - rewrite <- (take_drop_middle input_opts i (k, v)) at 1 by done.
    rewrite map_app. cbn [map]. unfold argument_line at 2. cbn [fst snd].
    unfold all_inputs. rewrite bool_decide_false by done.
    rewrite app_assoc_s. cbn [app]. rewrite <- !app_assoc. cbn [app].
    reflexivity.
  - cbn [length]. rewrite length_map, length_take.
    apply lookup_lt_Some in Hi. lia.
  - reflexivity.
  - reflexivity.
Qed.

(** C10. For every call rendered with the collective handle, the lines
    after the closing line of the call are one extraction line for each
    recorded output, in the order of the record, the save comment, one
    save statement for each recorded output, and a blank line: the
    outputs that the signature declares and the record lacks get
    neither. *)
Theorem template_action_collective_lines self (action : Action) input_opts
    variables :
  (Z.of_nat (length variables) > action_collection_size self
   ∨ Z.of_nat (length (outputs (signature (get_action action)))) > 5)%Z →
  ∃ call,
    recorder (template_action self action input_opts variables)
    = recorder self
      ++ call
      ++ [")"]
      ++ map (fun kv => to_interface_name kv.2 +:+ " = action_results."
                        +:+ kv.1) variables
      ++ [SAVE]
      ++ map (fun kv => to_interface_name kv.2 +:+ ".save('"
                        +:+ to_interface_name kv.2 +:+ "')") variables
      ++ [""]
    ∧ length call = 1 + length input_opts.
Proof.
  intros H.
  eexists (_ :: map (arg_line action) input_opts). split.
  - rewrite template_action_recorder. cbv zeta.
    replace (collective _ _ _) with true; [reflexivity|].
    unfold collective. destruct H as [H|H].
    + by rewrite bool_decide_true by done.
    + rewrite (bool_decide_true (_ > 5)%Z) by done.
      by rewrite orb_true_r.
  - cbn [length]. by rewrite length_map.
Qed.

End ActionProperties.

(** ** The properties on examples *)

Lemma template_action_output_style_witness :
  recorder
    (_template_action id "    " keyword_argument (__init__ None None)
       core_metrics [("table", "table_0")]
       [("rarefied_table", "rarefied_table")])
  = ["action_results = diversity_actions.core_metrics(";
     "    table=table_0,";
     ")";
     "rarefied_table = action_results.rarefied_table";
     SAVE;
     "rarefied_table.save('rarefied_table')";
     ""]
  ∧ recorder
      (_template_action id "    " keyword_argument (__init__ None None)
         summarize [("table", "table_0")] [("visualization", "viz")])
    = ["viz, = feature_table_actions.summarize(";
       "    table=table_0,";
       ")";
       SAVE;
       "viz.save('viz')";
       ""].
Proof.
  split.
  - rewrite (proj1 (template_action_output_style id "    " keyword_argument
                      (__init__ None None) core_metrics
                      [("table", "table_0")]
                      [("rarefied_table", "rarefied_table")])).
    + vm_compute. reflexivity.
    + right. vm_compute. reflexivity.
  - rewrite (proj1 (proj2 (template_action_output_style id "    "
                             keyword_argument (__init__ None None) summarize
                             [("table", "table_0")]
                             [("visualization", "viz")]))).
    + vm_compute. reflexivity.
    + vm_compute. intros [H|H]; discriminate H.
Defined.

(** C2, as stated, fails: with the single declared output
    [visualization] bound to [viz], the sequence is the name and the
    empty string, and the string returned keeps the comma. *)
Lemma template_outputs_single_output_keeps_comma :
  outputs (signature (get_action summarize)) = ["visualization"]
  ∧ output_vars_of id summarize [("visualization", "viz")] = ["viz"; ""]
  ∧ _template_outputs id summarize [("visualization", "viz")] = "viz,"
  ∧ _template_outputs id summarize [("visualization", "viz")] ≠ "viz".
Proof.
  split; [reflexivity|]. split; [reflexivity|]. split; [reflexivity|].
  intros H. vm_compute in H. discriminate H.
Qed.

Lemma template_outputs_single_output_witness :
  output_vars_of id summarize [("visualization", "viz")] = ["viz"; ""]
  ∧ _template_outputs id summarize [("visualization", "viz")] = "viz,".
Proof.
  exact (template_outputs_single_output id summarize
           [("visualization", "viz")] "visualization" eq_refl).
Defined.

Lemma template_outputs_declared_order_witness :
  let seq :=
    output_vars_of id core_metrics
      [("shannon_vector", "shannon"); ("rarefied_table", "rarefied")] in
  length seq = 7
  ∧ seq !! 0 = Some "rarefied"
  ∧ seq !! 1 = Some "_"
  ∧ seq !! 2 = Some "shannon"
  ∧ output_vars_of id core_metrics
      [("rarefied_table", "rarefied"); ("shannon_vector", "shannon")]
    = seq.
Proof.
  destruct (template_outputs_declared_order id core_metrics
              [("shannon_vector", "shannon"); ("rarefied_table", "rarefied")])
    as (Hlen & Hsome & Hnone & Hperm).
  cbv zeta. split; [exact Hlen|]. split; [|split; [|split]].
  - apply (Hsome 0 "rarefied_table" "rarefied"); reflexivity.
  - apply (Hnone 1 "observed_features_vector"); reflexivity.
  - apply (Hsome 2 "shannon_vector" "shannon"); reflexivity.
  - apply Hperm.
    + apply (bool_decide_unpack _). vm_compute. exact I.
    + apply Permutation_swap.
Defined.

Lemma template_action_unknown_parameter_witness :
  ∃ before extraction,
    recorder
      (_template_action id "    " keyword_argument (__init__ None None)
         summarize [("table", "table_0"); ("old_name", "3")]
         [("visualization", "viz")])
    = [] ++ before
      ++ ["    " +:+ FIXME +:+ "    old_name=3,"]
      ++ []
      ++ [")"]
      ++ extraction
      ++ [SAVE]
      ++ ["viz.save('viz')"]
      ++ [""]
    ∧ length before = 2
    ∧ TextWrap.take 8 FIXME = "# FIXME:"
    ∧ TextWrap.drop (Py.len FIXME - 1) FIXME = Py.LF.
Proof.
  apply (template_action_unknown_parameter id "    " keyword_argument
           (__init__ None None) summarize
           [("table", "table_0"); ("old_name", "3")]
           [("visualization", "viz")] 1 "old_name" "3").
  - reflexivity.
  - apply (bool_decide_unpack _). vm_compute. exact I.
Defined.

Lemma template_action_collective_lines_witness :
  ∃ call,
    recorder
      (_template_action id "    " keyword_argument (__init__ None None)
         core_metrics [("table", "table_0")]
         [("rarefied_table", "rarefied")])
    = [] ++ call
      ++ [")"]
      ++ ["rarefied = action_results.rarefied_table"]
      ++ [SAVE]
      ++ ["rarefied.save('rarefied')"]
      ++ [""]
    ∧ length call = 2.
Proof.
  apply (template_action_collective_lines id "    " keyword_argument
           (__init__ None None) core_metrics [("table", "table_0")]
           [("rarefied_table", "rarefied")]).
  right. vm_compute. reflexivity.
Defined.

(** ** Comment wrapping *)

Lemma cat_cons (c : string) (g : list string) :
  Py.cat (c :: g) = c +:+ Py.cat g.
Proof. reflexivity. Qed.

Lemma cat_app (g h : list string) : Py.cat (g ++ h) = Py.cat g +:+ Py.cat h.
Proof.
  induction g as [|c g IH]; [reflexivity|].
  cbn [app]. by rewrite !cat_cons, IH, app_assoc_s.
Qed.

Lemma take_drop_s (n : nat) (s : string) :
  TextWrap.take n s +:+ TextWrap.drop n s = s.
Proof.
  revert s. induction n as [|n IH]; intros [|c s]; try reflexivity.
  cbn [TextWrap.take TextWrap.drop]. by rewrite app_cons, IH.
Qed.

Lemma drop_len (n : nat) (s : string) :
  Py.len (TextWrap.drop n s) = Py.len s - n.
Proof.
  revert s. induction n as [|n IH]; intros [|c s]; try reflexivity.
  cbn [TextWrap.drop]. simpl. apply IH.
Qed.

(** The pattern matches at least one character of a text that has one. *)
Lemma next_chunk_len_pos (back : list ascii) (c : ascii) (s : string) :
  1 ≤ TextWrap.next_chunk_len back (String c s).
Proof.
  unfold TextWrap.next_chunk_len.
  destruct (TextWrap.is_whitespace c); [lia|].
  destruct (TextWrap.behind_word_punct back); [|lia].
  unfold TextWrap.dash_ahead.
  set (k := TextWrap.hyphens (String c s)).
  destruct (2 <=? k) eqn:Hk; [|simpl; lia].
  apply Nat.leb_le in Hk.
  destruct (match TextWrap.drop _ _ with "" => _ | String _ _ => _ end);
    simpl; lia.
Qed.

(** The chunks tile the text: with the length of the text as fuel the
    splitting reaches its end. *)
Lemma split_from_cat (fuel : nat) (back : list ascii) (s : string) :
  Py.len s ≤ fuel → Py.cat (TextWrap.split_from fuel back s) = s.
Proof.
  revert back s. induction fuel as [|fuel IH]; intros back s Hf.
  - destruct s; [reflexivity|simpl in Hf; lia].
  - destruct s as [|c s]; [reflexivity|].
    cbn [TextWrap.split_from]. rewrite cat_cons, IH, take_drop_s; [done|].
    rewrite drop_len. pose proof (next_chunk_len_pos back c s).
    simpl in *. lia.
Qed.

Lemma split_chunks_cat (text : string) :
  Py.cat (TextWrap._split_chunks text) = TextWrap._munge_whitespace text.
Proof. apply split_from_cat. done. Qed.

Lemma drops_blank_refl (chunks : list string) : drops_blank chunks chunks.
Proof. induction chunks; by constructor. Qed.

Lemma drops_blank_app (a chunks kept : list string) :
  drops_blank chunks kept → drops_blank (a ++ chunks) (a ++ kept).
Proof. intros H. induction a; [done|]. by constructor. Qed.

Lemma drops_blank_app_skip (a chunks kept : list string) (c : string) :
  TextWrap.blank c = true →
  drops_blank chunks kept → drops_blank ((a ++ [c]) ++ chunks) (a ++ kept).
Proof.
  intros Hc H. rewrite <- app_assoc. apply drops_blank_app.
  by constructor.
Qed.

(** The inner loop takes a prefix of the chunks, as long as the line has
    room, and stops at the first chunk that does not fit. *)
Lemma fill_line_spec (width : nat) (cur_line : list string) (cur_len : nat)
    (chunks : list string) :
  ∃ taken rest,
    TextWrap.fill_line width cur_line cur_len chunks
    = (cur_line ++ taken, cur_len + Py.len (Py.cat taken), rest)
    ∧ chunks = taken ++ rest
    ∧ (cur_len ≤ width → cur_len + Py.len (Py.cat taken) ≤ width)
    ∧ match rest with
      | c :: _ => width < cur_len + Py.len (Py.cat taken) + Py.len c
      | [] => True
      end.
Proof.
  revert cur_line cur_len.
  induction chunks as [|c chunks IH]; intros cur_line cur_len.
  - exists [], []. simpl. rewrite app_nil_r, Nat.add_0_r. done.
  - cbn [TextWrap.fill_line].
    destruct (cur_len + Py.len c <=? width) eqn:Hfit.
    + apply Nat.leb_le in Hfit.
      destruct (IH (cur_line ++ [c]) (cur_len + Py.len c))
        as (taken & rest & -> & -> & Hle & Hrest).
      exists (c :: taken), rest. rewrite cat_cons, len_app.
      rewrite <- app_assoc, !Nat.add_assoc. repeat split; [lia|done].
    + apply Nat.leb_gt in Hfit. exists [], (c :: chunks).
      simpl. rewrite app_nil_r, !Nat.add_0_r. repeat split; [done|lia].
Qed.

Lemma drop_last_blank_spec (cur_line : list string) :
  TextWrap.drop_last_blank cur_line = cur_line
  ∨ ∃ c, TextWrap.blank c = true
         ∧ cur_line = TextWrap.drop_last_blank cur_line ++ [c].
Proof.
  unfold TextWrap.drop_last_blank.
  destruct (last cur_line) as [c|] eqn:Hlast; [|by left].
  destruct (TextWrap.blank c) eqn:Hc; [|by left].
  right. exists c. split; [done|].
  apply last_Some in Hlast as [l' ->].
  by rewrite removelast_last.
Qed.

(** One turn of the outer loop, with the same indent for all lines: it
    uses up at least one chunk, and either adds no line or adds the line
    of a group of whole chunks that fits. *)
Lemma wrap_line_spec (W : nat) (ind : string) (lines : list string)
    (first : string) (rest : list string) :
  ∃ (group chunks' : list string),
    TextWrap.wrap_line W ind ind lines (first :: rest)
    = (lines ++ (if Py.truthy group then [ind +:+ Py.cat group] else []),
       chunks')
    ∧ length chunks' ≤ length rest
    ∧ (∀ kept, drops_blank chunks' kept →
               drops_blank (first :: rest) (group ++ kept))
    ∧ (group ≠ [] → fits (W - Py.len ind) group).
Proof.
  unfold TextWrap.wrap_line.
  replace (if Py.truthy lines then ind else ind) with ind
    by (by destruct (Py.truthy lines)).
  set (width := W - Py.len ind).
  set (chunks1 := if TextWrap.blank first && Py.truthy lines
                  then rest else first :: rest).
  assert (∀ kept, drops_blank chunks1 kept →
                  drops_blank (first :: rest) kept) as Hskip.
  { intros kept Hk. unfold chunks1 in Hk.
    destruct (TextWrap.blank first) eqn:Hb; [|done].
    destruct (Py.truthy lines); [|done]. by constructor. }
  assert (length chunks1 ≤ S (length rest)) as Hlen1.
  { unfold chunks1. destruct (_ && _); simpl; lia. }
  assert (chunks1 = first :: rest ∨ length chunks1 ≤ length rest) as Hcase.
  { unfold chunks1. destruct (_ && _); [right|left]; done. }
  destruct (fill_line_spec width [] 0 chunks1)
    as (taken & chunks2 & -> & Hsplit & Hle & Hrest).
  cbn [app Nat.add]. specialize (Hle (Nat.le_0_l _)). simpl in Hle, Hrest.
  (* the long word, if the line is empty *)
  set (step := match chunks2 with
               | c :: _ => if width <? Py.len c
                           then TextWrap._handle_long_word chunks2 taken
                           else (chunks2, taken)
               | [] => (chunks2, taken)
               end).
  assert (∃ extra chunks3,
            step = (chunks3, taken ++ extra)
            ∧ chunks2 = extra ++ chunks3
            ∧ (extra = []
               ∨ taken = [] ∧ ∃ c, extra = [c] ∧ width < Py.len c)
            ∧ (taken = [] → chunks2 ≠ [] → extra ≠ []))
    as (extra & chunks3 & -> & Hsplit2 & Hextra & Hprog).
  { unfold step. destruct chunks2 as [|c chunks2'].
    - exists [], []. rewrite app_nil_r. repeat split; auto; done.
    - destruct (width <? Py.len c) eqn:Hlong.
      + apply Nat.ltb_lt in Hlong. unfold TextWrap._handle_long_word.
        destruct taken as [|t taken']; simpl.
        * exists [c], chunks2'. repeat split; eauto.
        * exists [], (c :: chunks2'). rewrite app_nil_r.
          repeat split; auto; done.
      + apply Nat.ltb_ge in Hlong. exists [], (c :: chunks2').
        rewrite app_nil_r. repeat split; auto.
        intros ->. simpl in Hrest. lia. }
  set (cur_line := taken ++ extra).
  exists (TextWrap.drop_last_blank cur_line), chunks3.
  split; [|split; [|split]].
  - destruct (Py.truthy (TextWrap.drop_last_blank cur_line)); [done|].
    by rewrite app_nil_r.
  - (* at least one chunk is used up *)
    destruct Hcase as [Hc|Hc].
    + assert (cur_line ≠ []) as Hne.
      { unfold cur_line. destruct taken; [|done].
        rewrite app_nil_l. apply Hprog; [done|].
        simpl in Hsplit. rewrite <- Hsplit, Hc. done. }
      assert (length (first :: rest) = length cur_line + length chunks3)
        as Hl.
      { rewrite <- Hc, Hsplit, Hsplit2. unfold cur_line.
        by rewrite !length_app, Nat.add_assoc. }
      destruct cur_line; [done|]. simpl in Hl. lia.
    + rewrite Hsplit, Hsplit2, !length_app in Hc. lia.
  - intros kept Hk. apply Hskip.
    rewrite Hsplit, Hsplit2, app_assoc. fold cur_line.
    destruct (drop_last_blank_spec cur_line) as [->|(c & Hc & Heq)].
    + by apply drops_blank_app.
    + rewrite Heq at 1. by apply drops_blank_app_skip.
  - intros Hne. split; [done|].
    destruct Hextra as [->|(-> & c & -> & Hlong)].
    + left. unfold cur_line in *. rewrite app_nil_r in *.
      destruct (drop_last_blank_spec taken) as [->|(c & Hc & Heq)];
        [done|].
      rewrite Heq, cat_app, len_app in Hle. lia.
    + unfold cur_line in *. cbn [app] in *.
      destruct (drop_last_blank_spec [c]) as [Hkeep|(c' & Hc & Heq)].
      * rewrite Hkeep. right. exists c. split; [done|]. split; [done|].
        unfold TextWrap.drop_last_blank in Hkeep. cbn [last] in Hkeep.
        by destruct (TextWrap.blank c).
      * destruct (TextWrap.drop_last_blank [c]) as [|x [|y l]]; try done;
          simpl in Heq; destruct l; done.
Qed.

(** The outer loop ends with the fuel of [_wrap_chunks], and its lines
    hold the chunks whole and in order. *)
Lemma wrap_loop_spec (fuel W : nat) (ind : string)
    (lines chunks : list string) :
  length chunks ≤ fuel →
  ∃ groups : list (list string),
    TextWrap.wrap_loop fuel W ind ind lines chunks
    = Some (lines ++ map (fun g => ind +:+ Py.cat g) groups)
    ∧ drops_blank chunks (concat groups)
    ∧ Forall (fits (W - Py.len ind)) groups.
Proof.
  revert lines chunks. induction fuel as [|fuel IH]; intros lines chunks Hf.
  - destruct chunks; [|simpl in Hf; lia]. exists []. simpl.
    rewrite app_nil_r. repeat split; constructor.
  - destruct chunks as [|first rest].
    + exists []. simpl. rewrite app_nil_r. repeat split; constructor.
    + cbn [TextWrap.wrap_loop].
      destruct (wrap_line_spec W ind lines first rest)
        as (group & chunks' & -> & Hlen & Hdrops & Hfits).
      destruct (IH (lines ++ (if Py.truthy group
                              then [ind +:+ Py.cat group] else []))
                   chunks') as (groups & -> & Hd & Hall).
      { simpl in Hf. lia. }
      destruct group as [|c group].
      * exists groups. simpl. rewrite app_nil_r. split; [done|].
        split; [|done]. apply (Hdrops _ Hd).
      * exists ((c :: group) :: groups). cbn [Py.truthy map concat].
        rewrite <- app_assoc. split; [done|]. split.
        -- apply (Hdrops _ Hd).
        -- constructor; [by apply Hfits|done].
Qed.

(** C6, as stated, fails: the comment of a single word of 78 letters is
    one line of 80 characters. *)
Lemma comment_long_word_exceeds_79 :
  ∃ line : string,
    recorder <$> comment (__init__ (UsageVariable := string) None None)
                         (Py.mul "a" 78)
    = Some [line; ""]
    ∧ line = "# " +:+ Py.mul "a" 78
    ∧ 79 < Py.len line.
Proof.
  exists ("# " +:+ Py.mul "a" 78).
  split; [vm_compute; reflexivity|]. split; [reflexivity|].
  vm_compute. lia.
Qed.

(** A hyphenated compound may end a line after its hyphen. *)
Lemma comment_breaks_after_hyphen :
  recorder <$> comment (__init__ (UsageVariable := string) None None)
                       (Py.mul "a" 70 +:+ " well-known")
  = Some ["# " +:+ Py.mul "a" 70 +:+ " well-"; "# known"; ""].
Proof. vm_compute. reflexivity. Qed.

(** * Further properties *)

(** ** The header *)

Lemma chars_length (s : string) : length (chars s) = Py.len s.
Proof. induction s as [|c s IH]; simpl; [done|]. by rewrite IH. Qed.

Lemma split_lf_nonempty (s : string) : split_lf s ≠ [].
Proof.
  induction s as [|c s IH]; [done|]. cbn [split_lf].
  destruct (Ascii.eqb c "010"); [done|]. by destruct (split_lf s).
Qed.

Lemma join_cons2 (sep a b : string) (l : list string) :
  Py.join sep (a :: b :: l) = a +:+ sep +:+ Py.join sep (b :: l).
Proof. reflexivity. Qed.

(** Splitting a text at its line feeds and joining the pieces with line
    feeds gives the text back. *)
Lemma join_split_lf (s : string) : Py.join Py.LF (split_lf s) = s.
Proof.
  induction s as [|c s IH]; [reflexivity|]. cbn [split_lf].
  destruct (Ascii.eqb c "010") eqn:Hc.
  - apply Ascii.eqb_eq in Hc as ->.
    pose proof (split_lf_nonempty s) as Hne.
    destruct (split_lf s) as [|p ps]; [done|].
    rewrite join_cons2, IH. reflexivity.
  - pose proof (split_lf_nonempty s) as Hne.
    destruct (split_lf s) as [|p ps]; [done|].
    destruct ps as [|q ps].
    + simpl in *. by rewrite IH.
    + rewrite join_cons2 in *. rewrite app_cons. by rewrite IH.
Qed.

Lemma join_app (sep : string) (l1 l2 : list string) :
  l1 ≠ [] → l2 ≠ [] →
  Py.join sep (l1 ++ l2) = Py.join sep l1 +:+ sep +:+ Py.join sep l2.
Proof.
  intros H1 H2. induction l1 as [|a [|a' l1] IH]; [done| |].
  - destruct l2 as [|b l2]; [done|]. reflexivity.
  - cbn [app] in *. rewrite !join_cons2, IH by done.
    by rewrite !app_assoc_s.
Qed.

Lemma join_snoc_empty (sep : string) (l : list string) :
  l ≠ [] → Py.join sep (l ++ [""]) = Py.join sep l +:+ sep.
Proof.
  intros Hl. rewrite join_app by done. simpl. by rewrite app_empty_r.
Qed.

(** The number of lines that the argument [copyright] contributes. *)
Lemma iterate_length (x : StrOrLines) :
  length (iterate x)
  = match x with OfStr s => Py.len s | OfLines lines => length lines end.
Proof. destruct x; [apply chars_length|done]. Qed.

(** The header, part by part.  An empty [copyright] and an empty
    [extra_text] are skipped, which adds nothing either way. *)
Lemma build_header_parts (env : HeaderEnv) (sb bd : string)
    (cp : StrOrLines) (extra : list string) :
  build_header env sb bd cp extra
  = (if bool_decide (sb ≠ "") then [sb] else [])
    ++ (if bool_decide (bd ≠ "") then [bd] else [])
    ++ [attribution_line env]
    ++ iterate cp
    ++ [support_line]
    ++ extra
    ++ (if bool_decide (bd ≠ "") then [bd] else []).
Proof.
  unfold build_header.
  destruct (bool_decide (sb ≠ "")), (bool_decide (bd ≠ ""));
    destruct cp as [[|c s]|[|l ls]]; destruct extra as [|e extra];
    cbn [truthy_arg Py.truthy iterate chars app];
    rewrite ?bool_decide_true, ?bool_decide_false by (by auto);
    cbn [app]; rewrite <- ?app_assoc; cbn [app]; rewrite ?app_nil_r;
    reflexivity.
Qed.

(** X1. The header has one line for a shebang that is not empty, two for
    a boundary that is not empty, the attribution line, the support line,
    the lines of [extra_text], and what iterating [copyright] yields: its
    lines if it is a list, and one line for each of its characters if it
    is a string. *)
Theorem build_header_length (env : HeaderEnv) (sb bd : string)
    (cp : StrOrLines) (extra : list string) :
  length (build_header env sb bd cp extra)
  = (if bool_decide (sb ≠ "") then 1 else 0)
    + (if bool_decide (bd ≠ "") then 2 else 0)
    + 2
    + match cp with OfStr s => Py.len s | OfLines lines => length lines end
    + length extra.
Proof.
  rewrite build_header_parts, !length_app, iterate_length.
  destruct (bool_decide (sb ≠ "")), (bool_decide (bd ≠ "")); simpl; lia.
Qed.

Lemma build_header_last (env : HeaderEnv) (sb bd : string)
    (cp : StrOrLines) (extra : list string) :
  bd ≠ "" → last (build_header env sb bd cp extra) = Some bd.
Proof.
  intros Hbd. rewrite build_header_parts.
  rewrite !(bool_decide_true (bd ≠ "")) by done.
  rewrite !app_assoc. apply last_snoc.
Qed.

(** X2. In every header the attribution line comes right after the
    shebang and the opening boundary (those that are not empty), the
    support line right after the copyright lines, and the extra lines
    after it; a shebang that is not empty is the first line, and a
    boundary that is not empty both precedes the attribution line and is
    the last line. *)
Theorem build_header_layout (env : HeaderEnv) (sb bd : string)
    (cp : StrOrLines) (extra : list string) :
  let h := build_header env sb bd cp extra in
  let i := (if bool_decide (sb ≠ "") then 1 else 0)
           + (if bool_decide (bd ≠ "") then 1 else 0) in
  let n := length (iterate cp) in
  h !! i = Some (attribution_line env)
  ∧ h !! (i + 1 + n) = Some support_line
  ∧ (∀ j x, iterate cp !! j = Some x → h !! (i + 1 + j) = Some x)
  ∧ (∀ j x, extra !! j = Some x → h !! (i + 2 + n + j) = Some x)
  ∧ (sb ≠ "" → h !! 0 = Some sb)
  ∧ (bd ≠ "" → h !! (i - 1) = Some bd ∧ last h = Some bd).
Proof.
  intros h i n. unfold h, i, n.
  assert (∀ P : list string → nat → Prop,
            (∀ A B : list string,
               A = (if bool_decide (sb ≠ "") then [sb] else []) →
               B = (if bool_decide (bd ≠ "") then [bd] else []) →
               P (A ++ B ++ [attribution_line env] ++ iterate cp
                  ++ [support_line] ++ extra ++ B)
                 (length A + length B)) →
            P (build_header env sb bd cp extra)
              ((if bool_decide (sb ≠ "") then 1 else 0)
               + (if bool_decide (bd ≠ "") then 1 else 0))) as Hparts.
  { intros P HP. rewrite build_header_parts.
    specialize (HP _ _ eq_refl eq_refl).
    by destruct (bool_decide (sb ≠ "")), (bool_decide (bd ≠ "")). }
  split; [|split; [|split; [|split; [|split]]]].
  - apply (Hparts (fun h i => h !! i = Some _)). intros A B _ _.
    rewrite lookup_app_r by lia. rewrite lookup_app_r by lia.
    by replace (length A + length B - length A - length B) with 0 by lia.
  - apply (Hparts (fun h i => h !! (i + 1 + _) = Some _)). intros A B _ _.
    rewrite lookup_app_r by lia. rewrite lookup_app_r by lia.
    replace (length A + length B + 1 + length (iterate cp) - length A
             - length B) with (S (length (iterate cp))) by lia.
    simpl. by rewrite lookup_app_r, Nat.sub_diag by lia.
  - apply (Hparts (fun h i => ∀ j x, _ → h !! (i + 1 + j) = Some x)).
    intros A B _ _ j x Hj.
    rewrite lookup_app_r by lia. rewrite lookup_app_r by lia.
    replace (length A + length B + 1 + j - length A - length B)
      with (S j) by lia.
    simpl. by apply lookup_app_l_Some.
  - apply (Hparts (fun h i => ∀ j x, _ → h !! (i + 2 + _ + j) = Some x)).
    intros A B _ _ j x Hj.
    rewrite lookup_app_r by lia. rewrite lookup_app_r by lia.
    replace (length A + length B + 2 + length (iterate cp) + j - length A
             - length B) with (S (length (iterate cp) + S j)) by lia.
    simpl. rewrite lookup_app_r by lia.
    replace (length (iterate cp) + S j - length (iterate cp)) with (S j)
      by lia.
    simpl. by apply lookup_app_l_Some.
  - intros Hsb. rewrite build_header_parts.
    by rewrite (bool_decide_true (sb ≠ "")) by done.
  - intros Hbd. split; [|by apply build_header_last].
    rewrite build_header_parts.
    rewrite !(bool_decide_true (bd ≠ "")) by done.
    destruct (bool_decide (sb ≠ "")); reflexivity.
Qed.

Lemma build_header_layout_witness :
  let h := build_header env0 "#!/bin/sh" "# --" (OfLines ["# (c)"]) ["# how"] in
  h !! 0 = Some "#!/bin/sh"
  ∧ h !! 1 = Some "# --"
  ∧ h !! 2 = Some (attribution_line env0)
  ∧ h !! 3 = Some "# (c)"
  ∧ h !! 4 = Some support_line
  ∧ h !! 5 = Some "# how"
  ∧ last h = Some "# --".
Proof.
  destruct (build_header_layout env0 "#!/bin/sh" "# --" (OfLines ["# (c)"])
              ["# how"]) as (Ha & Hs & Hc & He & Hsb & Hbd).
  cbv zeta. split; [apply Hsb; discriminate|].
  split; [apply Hbd; discriminate|].
  split; [exact Ha|]. split; [apply (Hc 0); reflexivity|].
  split; [exact Hs|]. split; [apply (He 0); reflexivity|].
  apply Hbd. discriminate.
Defined.

Lemma app_ne_nil_l {A} (l1 l2 : list A) : l1 ≠ [] → l1 ++ l2 ≠ [].
Proof. by destruct l1. Qed.

Lemma app_ne_nil_r {A} (l1 l2 : list A) : l2 ≠ [] → l1 ++ l2 ≠ [].
Proof. by destruct l1, l2. Qed.

Lemma join_cons_ne (sep a : string) (l : list string) :
  l ≠ [] → Py.join sep (a :: l) = a +:+ sep +:+ Py.join sep l.
Proof. by destruct l. Qed.

Section HeaderFooterProperties.

Context {UsageVariable : Type}.
Implicit Types self : @ReplayPythonUsage UsageVariable.

Lemma import_block_empty self : local_imports self = ∅ → import_block self = [].
Proof. intros H. unfold import_block. rewrite H, elements_empty. done. Qed.

Lemma build_header_method_block (env : HeaderEnv)
    (copyright_note python_howto : string) self :
  build_header_method env copyright_note python_howto self
  = set_header self
      (header self
       ++ [shebang; header_boundary; attribution_line env]
       ++ split_lf copyright_note
       ++ [support_line]
       ++ split_lf python_howto
       ++ [header_boundary]).
Proof.
  unfold build_header_method. rewrite build_header_parts. reflexivity.
Qed.

(** X3. The method [build_header] keeps the header lines that are there
    and adds after them the shebang, the boundary, the attribution line,
    the lines of the copyright note, the support line, the lines of the
    how-to and the boundary again: never fewer than seven lines, since an
    asset file, even empty, splits into one line at least.  Nothing else
    of the driver changes. *)
Theorem build_header_method_appends (env : HeaderEnv)
    (copyright_note python_howto : string) self :
  ∃ block : list string,
    build_header_method env copyright_note python_howto self
    = set_header self (header self ++ block)
    ∧ block
      = [shebang; header_boundary; attribution_line env]
        ++ split_lf copyright_note
        ++ [support_line]
        ++ split_lf python_howto
        ++ [header_boundary]
    ∧ length block
      = 5 + length (split_lf copyright_note) + length (split_lf python_howto)
    ∧ 7 ≤ length block.
Proof.
  eexists. split; [apply build_header_method_block|].
  split; [reflexivity|].
  pose proof (split_lf_nonempty copyright_note).
  pose proof (split_lf_nonempty python_howto).
  rewrite !length_app. simpl.
  destruct (split_lf copyright_note), (split_lf python_howto);
    try done; simpl; split; lia.
Qed.

(** X4. On a driver whose header, local imports, body and footer are
    empty, building the header and rendering gives the shebang, the
    boundary, the attribution line, the text of the copyright note as it
    is in its file, the support line, the text of the how-to as it is in
    its file, and the boundary, each followed by a line feed. *)
Theorem build_header_method_render (env : HeaderEnv)
    (copyright_note python_howto : string) self (flush : bool) :
  header self = [] → local_imports self = ∅ →
  recorder self = [] → footer self = [] →
  (render (build_header_method env copyright_note python_howto self)
          flush).1
  = shebang +:+ Py.LF
    +:+ header_boundary +:+ Py.LF
    +:+ attribution_line env +:+ Py.LF
    +:+ copyright_note +:+ Py.LF
    +:+ support_line +:+ Py.LF
    +:+ python_howto +:+ Py.LF
    +:+ header_boundary +:+ Py.LF.
Proof.
  intros Hh Hi Hr Hf. rewrite build_header_method_block.
  rewrite render_text.
  rewrite import_block_empty by done.
  cbn [header recorder footer set_header]. rewrite Hh, Hr, Hf.
  cbn [app Py.truthy]. rewrite !app_nil_r.
  pose proof (split_lf_nonempty copyright_note) as Hc.
  pose proof (split_lf_nonempty python_howto) as Hw.
  rewrite !join_cons_ne by (done || by apply app_ne_nil_r).
  rewrite join_snoc_empty by (by apply app_ne_nil_l).
  rewrite join_app by done.
  rewrite join_cons_ne by (by apply app_ne_nil_l).
  rewrite join_app by done.
  rewrite !join_split_lf. cbn [Py.join].
  by rewrite !app_assoc_s.
Qed.

End HeaderFooterProperties.

Lemma build_header_method_render_witness :
  (render (build_header_method env0 ("# (c) 2023" +:+ Py.LF) "# how"
             (__init__ (UsageVariable := string) None None)) true).1
  = shebang +:+ Py.LF
    +:+ header_boundary +:+ Py.LF
    +:+ attribution_line env0 +:+ Py.LF
    +:+ ("# (c) 2023" +:+ Py.LF) +:+ Py.LF
    +:+ support_line +:+ Py.LF
    +:+ "# how" +:+ Py.LF
    +:+ header_boundary +:+ Py.LF.
Proof.
  apply (build_header_method_render env0 ("# (c) 2023" +:+ Py.LF) "# how"
           (__init__ None None) true); reflexivity.
Defined.

(** ** The footer and the driver *)

Lemma join_app_lines (sep : string) (l1 l2 : list string) :
  l2 ≠ [] →
  Py.join sep (l1 ++ l2)
  = Py.cat (map (fun x => x +:+ sep) l1) +:+ Py.join sep l2.
Proof.
  intros H2. induction l1 as [|a l1 IH]; [reflexivity|].
  cbn [app map]. rewrite join_cons_ne by (by apply app_ne_nil_r).
  by rewrite IH, cat_cons, !app_assoc_s.
Qed.

Lemma len_join (sep : string) (l : list string) :
  l ≠ [] →
  Py.len (Py.join sep l) + Py.len sep
  = Py.len (Py.cat l) + length l * Py.len sep.
Proof.
  intros Hl. induction l as [|a [|b l] IH]; [done| |].
  - simpl. rewrite app_empty_r. lia.
  - rewrite join_cons2, cat_cons, !len_app. specialize (IH ltac:(done)).
    cbn [length] in *. lia.
Qed.

(** X5. With no parsed artifact, the footer is the boundary, the
    explanatory line, the boundary and a blank line: there is no
    identifier line. *)
Theorem build_footer_empty (dag : ProvDAG) (boundary : string) :
  _parsed_artifact_uuids dag = ∅ →
  build_footer dag boundary = Some [boundary; footer_note; boundary; ""].
Proof.
  intros H. unfold build_footer. rewrite footer_pairs_pair_up, H.
  rewrite elements_empty. reflexivity.
Qed.

Lemma build_footer_empty_witness :
  build_footer {| _parsed_artifact_uuids := ∅ |} "# --"
  = Some ["# --"; footer_note; "# --"; ""].
Proof. apply build_footer_empty. reflexivity. Defined.

Section FooterMethodProperties.

Context {UsageVariable : Type}.
Implicit Types self : @ReplayPythonUsage UsageVariable.

(** X6. The method [build_footer] never fails.  It keeps the footer lines
    that are there and adds after them the 4 + ceil(N/2) lines of the
    footer of the N parsed artifacts, so that a second call adds the same
    lines a second time. *)
Theorem build_footer_method_appends self (dag : ProvDAG) :
  ∃ block : list string,
    build_footer dag header_boundary = Some block
    ∧ length block = 4 + (size (_parsed_artifact_uuids dag) + 1) / 2
    ∧ build_footer_method self dag
      = Some (set_footer self (footer self ++ block))
    ∧ (build_footer_method self dag ≫= fun self' =>
       build_footer_method self' dag)
      = Some (set_footer self (footer self ++ block ++ block)).
Proof.
  unfold build_footer_method, build_footer.
  rewrite footer_pairs_pair_up. cbn [mbind option_bind].
  eexists. split; [reflexivity|]. split; [|split].
  - rewrite !length_app, pair_up_length, sorted_set_length. simpl. lia.
  - reflexivity.
  - cbn [footer set_footer]. by rewrite <- !app_assoc.
Qed.

(** X7. On a driver whose header, local imports, body and footer are
    empty, building the footer and rendering gives a text that starts
    with an empty line, the separator that [render] puts before a footer,
    followed by the boundary, the explanatory line, the identifier lines
    and the boundary, each followed by a line feed. *)
Theorem build_footer_method_render self (dag : ProvDAG) (flush : bool) :
  header self = [] → local_imports self = ∅ →
  recorder self = [] → footer self = [] →
  ∃ self',
    build_footer_method self dag = Some self'
    ∧ (render self' flush).1
      = Py.LF
        +:+ header_boundary +:+ Py.LF
        +:+ footer_note +:+ Py.LF
        +:+ Py.cat
              (map (fun line => line +:+ Py.LF)
                   (pair_up
                      (Py.sorted (elements (_parsed_artifact_uuids dag)))))
        +:+ header_boundary +:+ Py.LF.
Proof.
  intros Hh Hi Hr Hf. unfold build_footer_method, build_footer.
  rewrite footer_pairs_pair_up. cbn [mbind option_bind].
  eexists. split; [reflexivity|].
  rewrite render_text, import_block_empty by done.
  cbn [header recorder footer set_footer]. rewrite Hh, Hr, Hf.
  cbn [app Py.truthy].
  set (pairs := pair_up _).
  replace ("" :: header_boundary :: footer_note
           :: (pairs ++ [header_boundary]) ++ [""])
    with (("" :: header_boundary :: footer_note :: pairs)
          ++ [header_boundary; ""])
    by (cbn [app]; by rewrite <- app_assoc).
  rewrite join_app_lines by done. cbn [map Py.cat foldr Py.join].
  fold (Py.cat (map (fun x => x +:+ Py.LF) pairs)).
  by rewrite !app_assoc_s, app_empty_r.
Qed.

(** X8. [render(flush=False)] leaves the driver as it was exactly when
    both the header and the footer are empty. *)
Theorem render_no_flush_unchanged_iff self :
  (render self false).2 = self ↔ header self = [] ∧ footer self = [].
Proof.
  rewrite render_no_flush_state. destruct self as [ea acs li gi h r f idr].
  cbn [header footer]. split.
  - intros [= Hh Hf]. split.
    + destruct h as [|x h]; [done|]. cbn [Py.truthy] in Hh.
      apply (f_equal length) in Hh. rewrite length_app in Hh.
      simpl in Hh. lia.
    + destruct f as [|x f]; [done|]. cbn [Py.truthy] in Hf.
      apply (f_equal length) in Hf. simpl in Hf. lia.
  - intros [-> ->]. reflexivity.
Qed.

(** X9. Rendering twice without flush: the second text is longer than
    the first by one character, a line feed, for a header that is not
    empty, and by one more for a footer that is not empty. *)
Theorem render_twice_length self :
  Py.len (render (render self false).2 false).1
  = Py.len (render self false).1
    + (if Py.truthy (header self) then 1 else 0)
    + (if Py.truthy (footer self) then 1 else 0).
Proof.
  rewrite !render_text, render_no_flush_state.
  unfold import_block. cbn [header footer recorder local_imports].
  set (I := if Py.truthy (Py.sorted (elements (local_imports self)))
            then _ else _).
  clearbody I.
  assert (∀ L, L ≠ [] →
            Py.len (Py.join Py.LF L) + 1 = Py.len (Py.cat L) + length L)
    as Hjoin.
  { intros L HL. rewrite len_join by done. simpl. lia. }
  destruct (header self) as [|x h], (footer self) as [|y f];
    cbn [Py.truthy app];
    [lia|
     match goal with
     | |- Py.len (Py.join _ ?L2) = Py.len (Py.join _ ?L1) + _ + _ =>
         pose proof (Hjoin L1) as H1; pose proof (Hjoin L2) as H2;
         specialize (H1 ltac:(done || by apply app_ne_nil_r, app_ne_nil_r));
         specialize (H2 ltac:(done || by apply app_ne_nil_r, app_ne_nil_r));
         set (t1 := Py.join Py.LF L1) in *;
         set (t2 := Py.join Py.LF L2) in *;
         clearbody t1 t2
     end ..].
  all: repeat (rewrite ?cat_app, ?cat_cons, ?len_app, ?length_app in H1;
               simpl in H1).
  all: repeat (rewrite ?cat_app, ?cat_cons, ?len_app, ?length_app in H2;
               simpl in H2).
  all: lia.
Qed.

(** X10. [render], [_reset_state], [_template_action], [comment] and the
    two builders never change the collection threshold nor the assertion
    switch of the driver. *)
Theorem methods_keep_configuration
    {UsageValue : Type} (to_interface_name : UsageVariable → string)
    (INDENT : string) (_template_input : string → UsageValue → string)
    self :
  let same self' :=
    action_collection_size self' = action_collection_size self
    ∧ enable_assertions self' = enable_assertions self in
  (∀ flush, same (render self flush).2)
  ∧ (∀ reset, same (_reset_state self reset))
  ∧ (∀ action input_opts variables,
       same (_template_action to_interface_name INDENT _template_input
               self action input_opts variables))
  ∧ (∀ text self', comment self text = Some self' → same self')
  ∧ (∀ env c h, same (build_header_method env c h self))
  ∧ (∀ dag self', build_footer_method self dag = Some self' → same self').
Proof.
  intros same. unfold same. repeat split.
  - destruct flush;
      rewrite ?render_flush_state, ?render_no_flush_state; reflexivity.
  - destruct flush;
      rewrite ?render_flush_state, ?render_no_flush_state; reflexivity.
  - unfold comment in H. destruct (TextWrap.wrap _ _ _ _); [|done].
    simpl in H. by injection H as <-.
  - unfold comment in H. destruct (TextWrap.wrap _ _ _ _); [|done].
    simpl in H. by injection H as <-.
  - unfold build_footer_method in H. destruct (build_footer _ _); [|done].
    simpl in H. by injection H as <-.
  - unfold build_footer_method in H. destruct (build_footer _ _); [|done].
    simpl in H. by injection H as <-.
Qed.

End FooterMethodProperties.

(** ** More on action invocations *)

Section MoreActionProperties.

Context {UsageVariable : Type}.
Variable to_interface_name : UsageVariable → string.
Context {UsageValue : Type}.
Variable INDENT : string.
Variable _template_input : string → UsageValue → string.
Implicit Types self : @ReplayPythonUsage UsageVariable.
Implicit Types input_opts : list (string * UsageValue).
Implicit Types variables : list (string * UsageVariable).

Local Abbreviation template_action :=
  (_template_action to_interface_name INDENT _template_input).
Local Abbreviation arg_line := (argument_line INDENT _template_input).

(** The lines of one invocation, from the threshold alone of the
    driver. *)
Lemma template_action_lines self (action : Action) input_opts variables :
  ∃ lines,
    recorder (template_action self action input_opts variables)
    = recorder self ++ lines
    ∧ lines
      = (let style :=
           collective (action_collection_size self) (length variables)
             (length (outputs (signature (get_action action)))) in
         [call_line
            (if style then "action_results"
             else _template_outputs to_interface_name action variables)
            action]
         ++ map (arg_line action) input_opts
         ++ [")"]
         ++ (if style then map (extraction_line to_interface_name) variables
             else [])
         ++ [SAVE]
         ++ map (save_line to_interface_name) variables
         ++ [""]).
Proof. eexists. split; [apply template_action_recorder|reflexivity]. Qed.

(** X11. An entry of the inputs whose name is an input or a parameter of
    the live signature gets its argument line and no warning. *)
Theorem template_action_known_parameter self (action : Action) input_opts
    variables (i : nat) (k : string) (v : UsageValue) :
  input_opts !! i = Some (k, v) →
  k ∈ inputs (signature (get_action action))
      ++ parameters (signature (get_action action)) →
  recorder (template_action self action input_opts variables)
    !! (length (recorder self) + 1 + i)
  = Some (_template_input k v).
Proof.
  intros Hi Hk. rewrite template_action_recorder. cbv zeta.
  rewrite lookup_app_r by lia.
  replace (length (recorder self) + 1 + i - length (recorder self))
    with (S i) by lia.
  cbn [app]. simpl. apply lookup_app_l_Some.
  rewrite list_lookup_fmap, Hi. simpl. unfold argument_line, all_inputs.
  cbn [fst snd]. by rewrite bool_decide_true by done.
Qed.

(** X12. One invocation appends to the body, after the lines that are
    there, four lines (the call, its closing, the save comment and a
    blank line), a line for each entry of the inputs, and for each
    recorded output one line, or two in the collective style.  The blank
    line comes last. *)
Theorem template_action_line_count self (action : Action) input_opts
    variables :
  let body := recorder (template_action self action input_opts variables) in
  length body
  = length (recorder self) + 4 + length input_opts
    + (if collective (action_collection_size self) (length variables)
            (length (outputs (signature (get_action action))))
       then 2 * length variables else length variables)
  ∧ take (length (recorder self)) body = recorder self
  ∧ last body = Some "".
Proof.
  intros body. unfold body. rewrite template_action_recorder. cbv zeta.
  split; [|split].
  - destruct (collective _ _ _);
      rewrite !length_app, !length_map; simpl; lia.
  - by rewrite take_app_length.
  - rewrite !app_assoc. apply last_snoc.
Qed.

(** X13. A driver whose threshold is negative renders every action in the
    collective style, also an action with no recorded output. *)
Theorem template_action_negative_threshold self (action : Action) input_opts
    variables :
  (action_collection_size self < 0)%Z →
  recorder (template_action self action input_opts variables)
  = recorder self
    ++ [call_line "action_results" action]
    ++ map (arg_line action) input_opts
    ++ [")"]
    ++ map (extraction_line to_interface_name) variables
    ++ [SAVE]
    ++ map (save_line to_interface_name) variables
    ++ [""].
Proof.
  intros Hneg. rewrite template_action_recorder. cbv zeta.
  unfold collective. by rewrite bool_decide_true by lia.
Qed.

(** X14. Two invocations in a row append the lines of the first and then
    the lines of the second, and the lines of the second are those it
    appends to any driver with the same threshold: what the buffers hold
    does not show in them. *)
Theorem template_action_compose self self0 (a1 a2 : Action) i1 i2 v1 v2 :
  action_collection_size self0 = action_collection_size self →
  recorder (template_action (template_action self a1 i1 v1) a2 i2 v2)
  = recorder (template_action self a1 i1 v1)
    ++ drop (length (recorder self0))
            (recorder (template_action self0 a2 i2 v2)).
Proof.
  intros Hacs.
  destruct (template_action_lines (template_action self a1 i1 v1) a2 i2 v2)
    as (l2 & -> & Hl2).
  destruct (template_action_lines self0 a2 i2 v2) as (l2' & -> & Hl2').
  rewrite drop_app_length. f_equal. rewrite Hl2, Hl2'.
  by rewrite Hacs.
Qed.

End MoreActionProperties.

(** ** More on output binding *)

Lemma rstrip_no_space (s : string) : no_space s = true → Py.rstrip s = s.
Proof.
  induction s as [|c s IH]; [done|]. cbn [no_space Py.rstrip].
  intros [Hc Hs]%andb_true_iff. rewrite (IH Hs).
  destruct s; [|done]. by destruct (Py.isspace c).
Qed.

Lemma rstrip_app_kept (x y : string) :
  Py.rstrip y = y → y ≠ "" → Py.rstrip (x +:+ y) = x +:+ y.
Proof.
  intros Hy Hne. induction x as [|c x IH]; [done|].
  rewrite app_cons. cbn [Py.rstrip]. rewrite IH.
  destruct x; [|done]. rewrite app_nil_s. by destruct y.
Qed.

Lemma lstrip_app_kept (x y : string) :
  no_space x = true → x ≠ "" → Py.lstrip (x +:+ y) = x +:+ y.
Proof.
  intros Hx Hne. destruct x as [|c x]; [done|].
  cbn [no_space] in Hx. apply andb_true_iff in Hx as [Hc _].
  rewrite app_cons, lstrip_cons. by destruct (Py.isspace c).
Qed.

(** Names without whitespace, joined, are not trimmed. *)
Lemma strip_join_clean (sep : string) (l : list string) :
  l ≠ [] → Forall (fun s => no_space s = true ∧ s ≠ "") l →
  Py.strip (Py.join sep l) = Py.join sep l.
Proof.
  intros Hl Hall. unfold Py.strip.
  assert (Py.lstrip (Py.join sep l) = Py.join sep l) as ->.
  { destruct l as [|a [|b l]]; [done| |].
    - apply Forall_cons in Hall as [[Ha Hne] _]. simpl.
      rewrite <- (app_empty_r a) at 1 2. by apply lstrip_app_kept.
    - apply Forall_cons in Hall as [[Ha Hne] _].
      rewrite join_cons2. by apply lstrip_app_kept. }
  induction l as [|a [|b l] IH]; [done| |].
  - apply Forall_cons in Hall as [[Ha Hne] _]. simpl.
    by apply rstrip_no_space.
  - apply Forall_cons in Hall as [[Ha Hne] Hall].
    rewrite join_cons2, <- app_assoc_s.
    apply rstrip_app_kept; [by apply IH|].
    apply Forall_cons in Hall as [[Hb Hbne] _].
    destruct l; [done|]. rewrite join_cons2. by destruct b.
Qed.

Section MoreBindingProperties.

Context {UsageVariable : Type}.
Variable to_interface_name : UsageVariable → string.
Context {UsageValue : Type}.
Variable INDENT : string.
Variable _template_input : string → UsageValue → string.
Implicit Types self : @ReplayPythonUsage UsageVariable.
Implicit Types variables : list (string * UsageVariable).

Lemma getattr_elem_of variables (o : string) (v : UsageVariable) :
  getattr variables o = Some v → (o, v) ∈ variables.
Proof.
  induction variables as [|[k w] variables IH]; [done|]. cbn [getattr].
  destruct (decide (k = o)) as [->|Hne].
  - intros [= ->]. by left.
  - intros H. right. by apply IH.
Qed.

(** X15. With two declared outputs or more, and interface names that are
    not empty and hold no whitespace, [_template_outputs] returns the
    names bound to the declared outputs joined by a comma and a space:
    nothing is trimmed and no comma trails. *)
Theorem template_outputs_several_outputs (action : Action) variables :
  2 ≤ length (outputs (signature (get_action action))) →
  (∀ k v, (k, v) ∈ variables →
          no_space (to_interface_name v) = true ∧ to_interface_name v ≠ "") →
  _template_outputs to_interface_name action variables
  = Py.join ", "
      (map (binding to_interface_name variables)
           (outputs (signature (get_action action)))).
Proof.
  intros Hlen Hclean. unfold _template_outputs.
  rewrite output_vars_of_binding. cbv zeta. rewrite length_map.
  rewrite decide_False by lia.
  apply strip_join_clean.
  - destruct (outputs _); [simpl in Hlen; lia|done].
  - apply Forall_forall. intros name [o [-> Ho]]%list_elem_of_fmap.
    unfold binding. destruct (getattr variables o) as [v|] eqn:Hv; [|done].
    apply (Hclean o v). by apply getattr_elem_of.
Qed.

(** X16. For an action that declares no output, [_template_outputs]
    returns the empty string, so that in the individual style the call
    line starts with the equals sign: nothing stands on its left. *)
Theorem template_outputs_no_output self (action : Action)
    (input_opts : list (string * UsageValue)) variables :
  outputs (signature (get_action action)) = [] →
  _template_outputs to_interface_name action variables = ""
  ∧ ((Z.of_nat (length variables) ≤ action_collection_size self)%Z →
     recorder (_template_action to_interface_name INDENT _template_input
                 self action input_opts variables)
       !! length (recorder self)
     = Some (" = " +:+ plugin_id action +:+ "_actions."
             +:+ action_id action +:+ "(")).
Proof.
  intros Ho.
  assert (_template_outputs to_interface_name action variables = "") as Hto.
  { unfold _template_outputs. rewrite output_vars_of_binding, Ho.
    reflexivity. }
  split; [done|]. intros Hle.
  rewrite template_action_recorder. cbv zeta.
  rewrite lookup_app_r, Nat.sub_diag by lia.
  unfold collective. rewrite Ho. simpl length.
  rewrite !bool_decide_false by lia. simpl. by rewrite Hto.
Qed.

(** X17. In the individual style, a variable recorded under a name that
    the live signature does not declare is saved although the call line
    does not bind it: its save statement is in the body, while every name
    on the left of the call is the placeholder, the empty padding, or the
    name of a variable recorded under a declared output. *)
Theorem template_action_undeclared_output self (action : Action)
    (input_opts : list (string * UsageValue)) variables
    (k : string) (v : UsageVariable) :
  collective (action_collection_size self) (length variables)
    (length (outputs (signature (get_action action)))) = false →
  (k, v) ∈ variables →
  k ∉ outputs (signature (get_action action)) →
  (to_interface_name v +:+ ".save('" +:+ to_interface_name v +:+ "')")
    ∈ recorder (_template_action to_interface_name INDENT _template_input
                  self action input_opts variables)
  ∧ ∀ name,
      name ∈ output_vars_of to_interface_name action variables →
      name = "" ∨ name = "_"
      ∨ ∃ o v', o ∈ outputs (signature (get_action action)) ∧ o ≠ k
                ∧ (o, v') ∈ variables ∧ name = to_interface_name v'.
Proof.
  intros Hstyle Hkv Hk. split.
  - rewrite template_action_recorder. cbv zeta. rewrite Hstyle.
    rewrite !elem_of_app. do 6 right. left.
    apply list_elem_of_fmap. by exists (k, v).
  - intros name. rewrite output_vars_of_binding. cbv zeta.
    intros Hin.
    assert (name = ""
            ∨ name ∈ map (binding to_interface_name variables)
                         (outputs (signature (get_action action))))
      as [->|Hb].
    { destruct (decide _); [|by right].
      apply elem_of_app in Hin as [Hin|Hin]; [by right|].
      left. by apply list_elem_of_singleton in Hin. }
    { by left. }
    apply list_elem_of_fmap in Hb as [o [-> Ho]]. unfold binding.
    destruct (getattr variables o) as [v'|] eqn:Hv; [|by right; left].
    right. right. exists o, v'. split; [done|].
    split; [by intros ->|]. split; [by apply getattr_elem_of|done].
Qed.

End MoreBindingProperties.

(** ** More on comment wrapping *)

Lemma only_whitespace_app (a b : string) :
  only_whitespace (a +:+ b) = only_whitespace a && only_whitespace b.
Proof.
  induction a as [|c a IH]; [done|]. rewrite app_cons. cbn [only_whitespace].
  by rewrite IH, andb_assoc.
Qed.

Lemma only_whitespace_spaces (n : nat) :
  only_whitespace (TextWrap.spaces n) = true.
Proof. induction n as [|n IH]; [done|]. exact IH. Qed.

Lemma expandtabs_only_whitespace (col : nat) (s : string) :
  only_whitespace s = true →
  only_whitespace (TextWrap.expandtabs_from col s) = true.
Proof.
  revert col. induction s as [|c s IH]; intros col; [done|].
  cbn [only_whitespace TextWrap.expandtabs_from].
  intros [Hc Hs]%andb_true_iff. destruct (TextWrap.code c =? 9).
  - cbv zeta. by rewrite only_whitespace_app, only_whitespace_spaces, IH.
  - cbn [only_whitespace]. by rewrite Hc, IH.
Qed.

Lemma translate_only_whitespace (s : string) :
  only_whitespace s = true →
  TextWrap.translate_whitespace s = TextWrap.spaces (Py.len s).
Proof.
  induction s as [|c s IH]; [done|]. cbn [only_whitespace].
  intros [Hc Hs]%andb_true_iff. cbn [TextWrap.translate_whitespace].
  rewrite Hc, (IH Hs). reflexivity.
Qed.

Lemma whitespace_run_spaces (n : nat) :
  TextWrap.whitespace_run (TextWrap.spaces n) = n.
Proof. induction n as [|n IH]; [done|]. simpl. by rewrite IH. Qed.

Lemma take_spaces (n : nat) :
  TextWrap.take n (TextWrap.spaces n) = TextWrap.spaces n.
Proof. induction n as [|n IH]; [done|]. simpl. by rewrite IH. Qed.

Lemma drop_spaces (n : nat) : TextWrap.drop n (TextWrap.spaces n) = "".
Proof. induction n as [|n IH]; [done|]. exact IH. Qed.

Lemma len_spaces (n : nat) : Py.len (TextWrap.spaces n) = n.
Proof. induction n as [|n IH]; [done|]. simpl. by rewrite IH. Qed.

(** A run of spaces is a single chunk. *)
Lemma split_spaces (n : nat) :
  TextWrap._split (TextWrap.spaces (S n)) = [TextWrap.spaces (S n)].
Proof.
  unfold TextWrap._split. rewrite len_spaces.
  cbn [TextWrap.split_from TextWrap.spaces].
  change (String " " (TextWrap.spaces n)) with (TextWrap.spaces (S n)).
  assert (TextWrap.next_chunk_len [] (TextWrap.spaces (S n)) = S n) as ->.
  { cbn [TextWrap.spaces TextWrap.next_chunk_len].
    change (TextWrap.is_whitespace " ") with true. cbv iota.
    by rewrite whitespace_run_spaces. }
  rewrite take_spaces, drop_spaces. by destruct n.
Qed.

Lemma blank_spaces (n : nat) : TextWrap.blank (TextWrap.spaces n) = true.
Proof.
  unfold TextWrap.blank. apply bool_decide_eq_true. unfold Py.strip.
  assert (Py.lstrip (TextWrap.spaces n) = "") as ->; [|done].
  induction n as [|n IH]; [done|]. exact IH.
Qed.

(** A single blank chunk gives no line. *)
Lemma wrap_single_blank (W : nat) (ind c : string) :
  TextWrap.blank c = true →
  TextWrap._wrap_chunks W ind ind [c] = Some [].
Proof.
  intros Hc. unfold TextWrap._wrap_chunks.
  cbn [length TextWrap.wrap_loop].
  assert (TextWrap.wrap_line W ind ind [] [c] = ([], [])) as ->; [|done].
  unfold TextWrap.wrap_line. cbn [Py.truthy].
  rewrite andb_false_r. cbn [TextWrap.fill_line Nat.add].
  destruct (Py.len c <=? W - Py.len ind) eqn:Hfit.
  - cbn [TextWrap.fill_line app]. unfold TextWrap.drop_last_blank.
    cbn [last]. rewrite Hc. reflexivity.
  - apply Nat.leb_gt in Hfit. apply Nat.ltb_lt in Hfit as ->.
    cbn [TextWrap._handle_long_word Py.truthy app].
    unfold TextWrap.drop_last_blank. cbn [last]. rewrite Hc. reflexivity.
Qed.

(** X18. The comment of a text that is empty or holds only tabs, line
    feeds, carriage returns, form feeds, vertical tabs and spaces adds a
    blank line to the body and no comment line. *)
Theorem comment_whitespace_only {UsageVariable : Type}
    (self : @ReplayPythonUsage UsageVariable) (text : string) :
  only_whitespace text = true →
  comment self text = Some (set_recorder self (recorder self ++ [""])).
Proof.
  intros Hws. unfold comment, TextWrap.wrap, TextWrap._split_chunks,
    TextWrap._munge_whitespace.
  rewrite translate_only_whitespace by by apply expandtabs_only_whitespace.
  destruct (Py.len (TextWrap.expandtabs_from 0 text)) as [|n].
  - reflexivity.
  - rewrite split_spaces, wrap_single_blank by apply blank_spaces.
    reflexivity.
Qed.

Lemma comment_whitespace_only_witness :
  comment (__init__ (UsageVariable := string) None None)
          (" " +:+ Py.TAB +:+ Py.LF)
  = Some (set_recorder (__init__ None None) [""]).
Proof.
  apply (comment_whitespace_only (__init__ None None)
           (" " +:+ Py.TAB +:+ Py.LF)).
  reflexivity.
Defined.

Lemma plain_app (a b : string) : plain (a +:+ b) = plain a && plain b.
Proof.
  induction a as [|c a IH]; [done|]. rewrite app_cons. cbn [plain].
  by rewrite IH, andb_assoc.
Qed.

Lemma plain_translate (s : string) :
  plain (TextWrap.translate_whitespace s) = true.
Proof.
  induction s as [|c s IH]; [done|].
  cbn [TextWrap.translate_whitespace plain]. rewrite IH, andb_true_r.
  destruct (TextWrap.is_whitespace c) eqn:Hc; [done|]. by rewrite Hc.
Qed.

Lemma plain_take_drop (n : nat) (s : string) :
  plain s = true →
  plain (TextWrap.take n s) = true ∧ plain (TextWrap.drop n s) = true.
Proof.
  intros Hs. rewrite <- (take_drop_s n s), plain_app in Hs.
  by apply andb_true_iff in Hs.
Qed.

Lemma split_from_plain (fuel : nat) (back : list ascii) (s : string) :
  plain s = true →
  Forall (fun c => plain c = true) (TextWrap.split_from fuel back s).
Proof.
  revert back s. induction fuel as [|fuel IH]; intros back s Hs; [constructor|].
  destruct s as [|c s]; [constructor|]. cbn [TextWrap.split_from].
  destruct (plain_take_drop
              (TextWrap.next_chunk_len back (String c s)) (String c s) Hs).
  constructor; [done|]. by apply IH.
Qed.

Lemma drops_blank_Forall (P : string → Prop) (chunks kept : list string) :
  drops_blank chunks kept → Forall P chunks → Forall P kept.
Proof.
  induction 1 as [|c chunks kept _ IH|c chunks kept _ _ IH];
    intros Hall; [done| |].
  - apply Forall_cons in Hall as [? ?]. constructor; auto.
  - apply Forall_cons in Hall as [? ?]. auto.
Qed.

Lemma plain_cat (g : list string) :
  Forall (fun c => plain c = true) g → plain (Py.cat g) = true.
Proof.
  induction 1 as [|c g Hc _ IH]; [done|].
  by rewrite cat_cons, plain_app, Hc, IH.
Qed.

(** X19. Whatever the text, every line that [comment] adds before the
    final blank line starts with the comment marker and a space, and
    holds no line feed, carriage return, tab, vertical tab or form feed:
    the text cannot leave the comment. *)
Theorem comment_lines_are_comments {UsageVariable : Type}
    (self : @ReplayPythonUsage UsageVariable) (text : string) :
  ∃ lines : list string,
    comment self text
    = Some (set_recorder self (recorder self ++ lines ++ [""]))
    ∧ Forall (fun l => TextWrap.take 2 l = "# " ∧ plain l = true) lines.
Proof.
  destruct (wrap_loop_spec (length (TextWrap._split_chunks text)) 79 "# "
              [] (TextWrap._split_chunks text) (le_n _))
    as (groups & Hwrap & Hdrops & _).
  exists (map (fun g => "# " +:+ Py.cat g) groups). split.
  - unfold comment, TextWrap.wrap, TextWrap._wrap_chunks.
    rewrite Hwrap. reflexivity.
  - assert (Forall (fun c => plain c = true) (concat groups)) as Hall.
    { eapply drops_blank_Forall; [exact Hdrops|].
      apply split_from_plain, plain_translate. }
    apply Forall_concat in Hall.
    apply Forall_map. eapply Forall_impl; [exact Hall|].
    intros g Hg. split; [reflexivity|].
    rewrite plain_app. apply andb_true_iff. split; [reflexivity|].
    by apply plain_cat.
Qed.

Lemma fill_line_all (width : nat) (cur_line : list string) (cur_len : nat)
    (chunks : list string) :
  cur_len + Py.len (Py.cat chunks) ≤ width →
  TextWrap.fill_line width cur_line cur_len chunks
  = (cur_line ++ chunks, cur_len + Py.len (Py.cat chunks), []).
Proof.
  revert cur_line cur_len.
  induction chunks as [|c chunks IH]; intros cur_line cur_len Hle.
  - simpl. by rewrite app_nil_r, Nat.add_0_r.
  - rewrite cat_cons, len_app in *. cbn [TextWrap.fill_line].
    replace (cur_len + Py.len c <=? width) with true
      by (symmetry; apply Nat.leb_le; lia).
    rewrite IH by lia. by rewrite <- app_assoc, Nat.add_assoc.
Qed.

Lemma take_nonempty (n : nat) (c : ascii) (s : string) :
  1 ≤ n → TextWrap.take n (String c s) ≠ "".
Proof. destruct n; [lia|done]. Qed.

Lemma split_from_chunks_nonempty (fuel : nat) (back : list ascii)
    (s : string) :
  Forall (fun c => c ≠ "") (TextWrap.split_from fuel back s).
Proof.
  revert back s. induction fuel as [|fuel IH]; intros back s; [constructor|].
  destruct s as [|c s]; [constructor|]. cbn [TextWrap.split_from].
  constructor; [|apply IH].
  apply take_nonempty, next_chunk_len_pos.
Qed.

Lemma rstrip_app_inv (x y : string) :
  Py.rstrip (x +:+ y) = x +:+ y → y ≠ "" → Py.rstrip y = y.
Proof.
  intros H Hy. induction x as [|c x IH]; [done|]. apply IH.
  rewrite app_cons in H. cbn [Py.rstrip] in H.
  destruct (Py.rstrip (x +:+ y)) as [|d r] eqn:Hr.
  - destruct (Py.isspace c); [done|]. injection H as H.
    destruct x; [by destruct y|done].
  - by injection H.
Qed.

Lemma blank_rstrip (y : string) : TextWrap.blank y = true → Py.rstrip y = "".
Proof.
  unfold TextWrap.blank. intros H%bool_decide_eq_true. unfold Py.strip in H.
  induction y as [|c y IH]; [done|]. rewrite lstrip_cons in H.
  cbn [Py.rstrip]. destruct (Py.isspace c) eqn:Hc.
  - by rewrite (IH H).
  - cbn [Py.rstrip] in H. rewrite Hc in H. by destruct (Py.rstrip y).
Qed.

(** Chunks that fit on one line and do not end blank make one line. *)
Lemma wrap_chunks_short (chunks : list string) (M : string) :
  Py.cat chunks = M → Forall (fun c => c ≠ "") chunks →
  M ≠ "" → Py.len M ≤ 77 → Py.rstrip M = M →
  TextWrap._wrap_chunks 79 "# " "# " chunks = Some ["# " +:+ M].
Proof.
  intros Hcat Hchunks Hne Hlen Hr.
  assert (TextWrap.drop_last_blank chunks = chunks) as Hkeep.
  { destruct (drop_last_blank_spec chunks) as [->|(cl & Hb & Heq)]; [done|].
    exfalso. rewrite Heq, cat_app in Hcat. simpl in Hcat.
    rewrite app_empty_r in Hcat.
    assert (cl ≠ "") as Hcl.
    { rewrite Forall_forall in Hchunks. apply Hchunks.
      rewrite Heq. apply elem_of_app. right. by left. }
    rewrite <- Hcat in Hr. apply rstrip_app_inv in Hr; [|done].
    rewrite (blank_rstrip cl Hb) in Hr. done. }
  destruct chunks as [|c chunks']; [by rewrite <- Hcat in Hne|].
  unfold TextWrap._wrap_chunks. cbn [length TextWrap.wrap_loop].
  assert (TextWrap.wrap_line 79 "# " "# " [] (c :: chunks')
          = (["# " +:+ M], [])) as ->; [|by destruct (length chunks')].
  unfold TextWrap.wrap_line. cbn [Py.truthy]. rewrite andb_false_r.
  rewrite fill_line_all by (rewrite Hcat; simpl; lia).
  cbn [app]. cbv iota beta. rewrite Hkeep, Hcat. reflexivity.
Qed.

(** X20. A text that, once its whitespace is normalised, is not empty,
    has at most 77 characters and does not end in whitespace is not
    wrapped: [comment] adds the marker and the normalised text as one
    line, leading whitespace included, and the blank line. *)
Theorem comment_short_text {UsageVariable : Type}
    (self : @ReplayPythonUsage UsageVariable) (text : string) :
  let normalised := TextWrap._munge_whitespace text in
  normalised ≠ "" →
  Py.len normalised ≤ 77 →
  Py.rstrip normalised = normalised →
  comment self text
  = Some (set_recorder self (recorder self ++ ["# " +:+ normalised; ""])).
Proof.
  intros M Hne Hlen Hr.
  unfold comment, TextWrap.wrap.
  rewrite (wrap_chunks_short _ M); try done.
  - apply split_chunks_cat.
  - apply split_from_chunks_nonempty.
Qed.

Lemma comment_short_text_witness :
  comment (__init__ (UsageVariable := string) None None)
          ("  see" +:+ Py.TAB +:+ "the docs")
  = Some (set_recorder (__init__ None None) ["#   see   the docs"; ""]).
Proof.
  apply (comment_short_text (__init__ None None)
           ("  see" +:+ Py.TAB +:+ "the docs")).
  - vm_compute. discriminate.
  - vm_compute. lia.
  - vm_compute. reflexivity.
Defined.

(** ** Loading metadata and importing data *)

(** The note of [init_metadata] wraps into two comment lines. *)
Lemma wrap_NOTE :
  TextWrap.wrap NOTE 79 "# " "# "
  = Some ["# NOTE: You may substitute already-loaded Metadata for the "
          +:+ "following, or cast a";
          "# pandas.DataFrame to Metadata as needed."].
Proof. vm_compute. reflexivity. Qed.

Section MetadataProperties.

Context {UsageVariable : Type}.
Variable to_interface_name : UsageVariable → string.
Context {Factory : Type}.
Variable super_init_metadata :
  @ReplayPythonUsage UsageVariable → string → Factory →
  UsageVariable * @ReplayPythonUsage UsageVariable.
Implicit Types self : @ReplayPythonUsage UsageVariable.

(** X21. [init_metadata] always returns, and returns the variable of the
    parent class.  To the body that the parent class leaves it appends,
    with a file name, the line that loads that file with the extension
    [.tsv]; without one, the note wrapped into two comment lines, a blank
    line and the line that loads a placeholder.  The header and the
    footer stay as the parent class leaves them. *)
Theorem init_metadata_lines self (name : string) (factory : Factory)
    (dumped_md_fn : string) :
  let var := (super_init_metadata self name factory).1 in
  let self0 := (super_init_metadata self name factory).2 in
  ∃ self',
    init_metadata to_interface_name super_init_metadata
      self name factory dumped_md_fn
    = Some (var, self')
    ∧ header self' = header self0
    ∧ footer self' = footer self0
    ∧ (dumped_md_fn ≠ "" →
       recorder self'
       = recorder self0
         ++ [to_interface_name var +:+ " = Metadata.load(" +:+ DQUOTE
             +:+ dumped_md_fn +:+ ".tsv" +:+ DQUOTE +:+ ")"])
    ∧ (dumped_md_fn = "" →
       recorder self'
       = recorder self0
         ++ ["# NOTE: You may substitute already-loaded Metadata for the "
             +:+ "following, or cast a";
             "# pandas.DataFrame to Metadata as needed.";
             "";
             to_interface_name var
             +:+ " = Metadata.load(<your metadata filepath>)"]).
Proof.
  intros var self0. unfold init_metadata, var, self0.
  destruct (super_init_metadata self name factory) as [v s0].
  cbn [fst snd]. destruct (decide (dumped_md_fn = "")) as [->|Hne].
  - rewrite bool_decide_false by auto. unfold comment.
    rewrite wrap_NOTE. cbn [mbind option_bind].
    eexists. split; [reflexivity|]. repeat split; [done|].
    intros _. cbn [recorder _add set_recorder _update_imports].
    by rewrite <- app_assoc.
  - rewrite bool_decide_true by done.
    eexists. split; [reflexivity|]. repeat split; done.
Qed.

End MetadataProperties.

Section ImportProperties.

Context {UsageVariable : Type}.
Variable to_interface_name : UsageVariable → string.
Variable INDENT : string.
Context {Format : Type}.
Variable usage_import_from_format :
  @ReplayPythonUsage UsageVariable → string → string → UsageVariable →
  ViewType Format → UsageVariable * @ReplayPythonUsage UsageVariable.
Variable format_name : Format → string.
Variable _canonical_module : Format → option string.
Variable repr : string → string.
Implicit Types self : @ReplayPythonUsage UsageVariable.

(** X22. Whatever the view type, [import_from_format] returns the
    variable of the parent class and appends to the body that the parent
    class leaves seven lines, or eight when a view type is given: the
    call, the [repr] of the semantic type, the placeholder of the path
    without quotes, the view type if any, and last the closing line, the
    save comment, the save statement and a blank line.  It keeps the
    local imports that are there and adds that of [Artifact].  A format
    whose module cannot be traced is shown as the [repr] of its name, as
    a string view type of that name is, and adds no other import. *)
Theorem import_from_format_lines self (name semantic_type : string)
    (variable : UsageVariable) (view_type : ViewType Format) :
  let parent :=
    usage_import_from_format self name semantic_type variable view_type in
  let result :=
    import_from_format to_interface_name INDENT usage_import_from_format
      format_name _canonical_module repr
      self name semantic_type variable view_type in
  result.1 = parent.1
  ∧ (∃ lines,
       recorder result.2 = recorder parent.2 ++ lines
       ∧ length lines
         = 7 + (if view_type is ViewNone then 0 else 1)
       ∧ take 3 lines
         = [to_interface_name parent.1 +:+ " = Artifact.import_data(";
            INDENT +:+ repr semantic_type +:+ ",";
            INDENT +:+ "<your data here>,"]
       ∧ drop (length lines - 4) lines
         = [")"; SAVE_ONE;
            to_interface_name parent.1 +:+ ".save('"
            +:+ to_interface_name parent.1 +:+ "')";
            ""]
       ∧ (∀ s, view_type = ViewStr s →
               lines !! 3 = Some (INDENT +:+ repr s +:+ ","))
       ∧ (∀ fmt, view_type = ViewFormat fmt →
                 _canonical_module fmt = None →
                 lines !! 3 = Some (INDENT +:+ repr (format_name fmt) +:+ ",")
                 ∧ local_imports result.2
                   = local_imports parent.2
                     ∪ {[ "from qiime2 import Artifact" ]}))
  ∧ local_imports parent.2 ⊆ local_imports result.2
  ∧ "from qiime2 import Artifact" ∈ local_imports result.2.
Proof.
  intros parent result. unfold result, import_from_format.
  fold parent. destruct parent as [v s0]. cbn [fst snd].
  destruct view_type as [|s|fmt];
    [| |destruct (_canonical_module fmt) as [path|] eqn:Hpath];
    cbn [fst snd recorder local_imports _add set_recorder _update_imports];
    (split; [done|]);
    (split; [eexists; split; [reflexivity|];
             split; [reflexivity|]; split; [reflexivity|];
             split; [reflexivity|]; split;
             [intros ? [= <-] || (intros ? [=]); reflexivity|
              intros ? [= <-] || (intros ? [=]);
              try (intros _; split; reflexivity);
              try (intros [=])]|]);
    try (split; set_solver).
Qed.

End ImportProperties.

(** ** The further properties on examples *)

Lemma build_footer_method_render_witness :
  ∃ self',
    build_footer_method (__init__ (UsageVariable := string) None None) dag3
    = Some self'
    ∧ (render self' false).1
      = Py.LF
        +:+ header_boundary +:+ Py.LF
        +:+ footer_note +:+ Py.LF
        +:+ Py.cat
              (map (fun line => line +:+ Py.LF)
                   (pair_up
                      (Py.sorted (elements (_parsed_artifact_uuids dag3)))))
        +:+ header_boundary +:+ Py.LF.
Proof.
  apply (build_footer_method_render (__init__ None None) dag3 false);
    reflexivity.
Defined.

Lemma render_no_flush_unchanged_iff_witness :
  (render (__init__ (UsageVariable := string) None None) false).2
  = __init__ None None.
Proof.
  apply (proj2 (render_no_flush_unchanged_iff (__init__ None None))).
  split; reflexivity.
Defined.

Lemma methods_keep_configuration_witness :
  comment (__init__ (UsageVariable := string) None (Some 4%Z)) "a note"
  = Some (set_recorder (__init__ None (Some 4%Z)) ["# a note"; ""])
  ∧ action_collection_size
      (set_recorder (__init__ (UsageVariable := string) None (Some 4%Z))
         ["# a note"; ""])
    = 4%Z
  ∧ enable_assertions
      (set_recorder (__init__ (UsageVariable := string) None (Some 4%Z))
         ["# a note"; ""])
    = false.
Proof.
  assert (comment (__init__ (UsageVariable := string) None (Some 4%Z))
                  "a note"
          = Some (set_recorder (__init__ None (Some 4%Z)) ["# a note"; ""]))
    as Hc by (vm_compute; reflexivity).
  split; [exact Hc|].
  destruct (methods_keep_configuration (UsageValue := string) id "    "
              keyword_argument (__init__ None (Some 4%Z)))
    as (_ & _ & _ & Hkeep & _).
  apply (Hkeep "a note" _ Hc).
Defined.

Lemma template_action_known_parameter_witness :
  recorder
    (_template_action id "    " keyword_argument (__init__ None None)
       summarize [("table", "table_0"); ("sample_metadata", "md")]
       [("visualization", "viz")])
    !! (0 + 1 + 1)
  = Some "    sample_metadata=md,".
Proof.
  apply (template_action_known_parameter id "    " keyword_argument
           (__init__ None None) summarize
           [("table", "table_0"); ("sample_metadata", "md")]
           [("visualization", "viz")] 1 "sample_metadata" "md").
  - reflexivity.
  - apply (bool_decide_unpack _). vm_compute. exact I.
Defined.

Lemma template_action_negative_threshold_witness :
  recorder
    (_template_action id "    " keyword_argument
       (__init__ None (Some (-1)%Z)) summarize [("table", "table_0")] [])
  = ["action_results = feature_table_actions.summarize(";
     "    table=table_0,";
     ")";
     SAVE;
     ""].
Proof.
  rewrite (template_action_negative_threshold id "    " keyword_argument
             (__init__ None (Some (-1)%Z)) summarize
             [("table", "table_0")] []).
  - vm_compute. reflexivity.
  - vm_compute. reflexivity.
Defined.

Lemma template_action_compose_witness :
  recorder
    (_template_action id "    " keyword_argument
       (_template_action id "    " keyword_argument (__init__ None None)
          summarize [] [("visualization", "viz")])
       core_metrics [] [])
  = recorder
      (_template_action id "    " keyword_argument (__init__ None None)
         summarize [] [("visualization", "viz")])
    ++ drop 0
         (recorder
            (_template_action id "    " keyword_argument
               (__init__ None None) core_metrics [] [])).
Proof.
  apply (template_action_compose id "    " keyword_argument
           (__init__ None None) (__init__ None None)
           summarize core_metrics [] [] [("visualization", "viz")] []).
  reflexivity.
Defined.

Lemma template_outputs_several_outputs_witness :
  _template_outputs id core_metrics [("shannon_vector", "shannon")]
  = "_, _, shannon, _, _, _, _".
Proof.
  rewrite (template_outputs_several_outputs id core_metrics
             [("shannon_vector", "shannon")]).
  - vm_compute. reflexivity.
  - vm_compute. lia.
  - intros k v Hin. apply list_elem_of_singleton in Hin.
    injection Hin as -> ->. split; [reflexivity|discriminate].
Defined.

Lemma template_outputs_no_output_witness :
  let tabulate :=
    {| plugin_id := "metadata"; action_id := "tabulate";
       get_action :=
         {| signature :=
              {| inputs := ["input"]; parameters := []; outputs := [] |} |} |} in
  recorder
    (_template_action id "    " keyword_argument (__init__ None None)
       tabulate [("input", "md")] [])
    !! 0
  = Some " = metadata_actions.tabulate(".
Proof.
  cbv zeta.
  apply (proj2 (template_outputs_no_output id "    " keyword_argument
                  (__init__ None None)
                  {| plugin_id := "metadata"; action_id := "tabulate";
                     get_action :=
                       {| signature :=
                            {| inputs := ["input"]; parameters := [];
                               outputs := [] |} |} |}
                  [("input", "md")] [] eq_refl)).
  vm_compute. discriminate.
Defined.

Lemma template_action_undeclared_output_witness :
  "old_viz.save('old_viz')"
    ∈ recorder
        (_template_action id "    " keyword_argument (__init__ None None)
           summarize [] [("report", "old_viz")])
  ∧ output_vars_of id summarize [("report", "old_viz")] = ["_"; ""].
Proof.
  split; [|reflexivity].
  apply (template_action_undeclared_output id "    " keyword_argument
           (__init__ None None) summarize [] [("report", "old_viz")]
           "report" "old_viz").
  - reflexivity.
  - by left.
  - apply (bool_decide_unpack _). vm_compute. exact I.
Defined.

Lemma init_metadata_lines_witness :
  ∃ self',
    init_metadata id parent_init_metadata (__init__ None None)
      "sample_md" tt "sample_md_0"
    = Some ("sample_md", self')
    ∧ recorder self'
      = ["sample_md = Metadata.load(" +:+ DQUOTE +:+ "sample_md_0.tsv"
         +:+ DQUOTE +:+ ")"].
Proof.
  destruct (init_metadata_lines id parent_init_metadata (__init__ None None)
              "sample_md" tt "sample_md_0")
    as (self' & Heq & _ & _ & Hfile & _).
  exists self'. split; [exact Heq|]. apply Hfile. discriminate.
Defined.

Lemma import_from_format_lines_witness :
  ∃ lines,
    recorder
      (import_from_format id "    " parent_import_from_format id module_of
         quoted (__init__ None None) "seqs" "FeatureData[Sequence]" "seqs"
         (ViewFormat "UnknownFmt")).2
    = [] ++ lines
    ∧ lines !! 3 = Some "    'UnknownFmt',".
Proof.
  destruct (import_from_format_lines id "    " parent_import_from_format id
              module_of quoted (__init__ None None) "seqs"
              "FeatureData[Sequence]" "seqs" (ViewFormat "UnknownFmt"))
    as (_ & (lines & Hrec & _ & _ & _ & _ & Hfmt) & _).
  exists lines. split; [exact Hrec|].
  apply (Hfmt "UnknownFmt" eq_refl). reflexivity.
Defined.

(** ** What a chunk is *)

Lemma is_whitespace_isspace (c : ascii) :
  TextWrap.is_whitespace c = true → Py.isspace c = true.
Proof.
  unfold TextWrap.is_whitespace, Py.isspace, TextWrap.code.
  set (n := nat_of_ascii c). clearbody n.
  destruct (9 <=? n) eqn:H1, (n <=? 13) eqn:H2, (n =? 32) eqn:H3;
    try done; intros _; apply Nat.eqb_eq in H3; subst n; reflexivity.
Qed.

Lemma is_hyphen_not_whitespace (c : ascii) :
  TextWrap.is_hyphen c = true → TextWrap.is_whitespace c = false.
Proof.
  unfold TextWrap.is_hyphen, TextWrap.is_whitespace.
  intros ->%Nat.eqb_eq. reflexivity.
Qed.

Lemma only_whitespace_lstrip (c : string) :
  only_whitespace c = true → Py.lstrip c = "".
Proof.
  induction c as [|a c IH]; [done|]. cbn [only_whitespace].
  intros [Ha Hc]%andb_true_iff. rewrite lstrip_cons.
  rewrite (is_whitespace_isspace a Ha). by apply IH.
Qed.

Lemma only_whitespace_blank (c : string) :
  only_whitespace c = true → TextWrap.blank c = true.
Proof.
  intros H. unfold TextWrap.blank, Py.strip.
  rewrite (only_whitespace_lstrip c H). reflexivity.
Qed.

Lemma last_char_cons_cons (a b : ascii) (s : string) :
  last_char (String a (String b s)) = last_char (String b s).
Proof.
  cbn [last_char]. by destruct (last_char s).
Qed.

Lemma only_whitespace_last_char (s : string) :
  only_whitespace s = true → s ≠ "" →
  ∃ a, last_char s = Some a ∧ TextWrap.is_whitespace a = true.
Proof.
  induction s as [|c s IH]; [done|]. cbn [only_whitespace].
  intros [Hc Hs]%andb_true_iff _. destruct s as [|d s].
  - exists c. done.
  - rewrite last_char_cons_cons. by apply IH.
Qed.

Lemma whitespace_run_take (s : string) :
  only_whitespace (TextWrap.take (TextWrap.whitespace_run s) s) = true.
Proof.
  induction s as [|c s IH]; [done|]. cbn [TextWrap.whitespace_run].
  destruct (TextWrap.is_whitespace c) eqn:Hc; [|done].
  cbn [TextWrap.take only_whitespace]. by rewrite Hc, IH.
Qed.

Lemma hyphens_take_last (s : string) :
  1 ≤ TextWrap.hyphens s →
  ∃ a, last_char (TextWrap.take (TextWrap.hyphens s) s) = Some a
       ∧ TextWrap.is_hyphen a = true.
Proof.
  induction s as [|c s IH]; [simpl; lia|]. cbn [TextWrap.hyphens].
  destruct (TextWrap.is_hyphen c) eqn:Hc; [|lia]. intros _.
  cbn [TextWrap.take last_char].
  destruct (TextWrap.hyphens s) as [|k] eqn:Hk.
  - exists c. by destruct s.
  - destruct IH as (a & -> & Ha); [lia|]. by exists a.
Qed.

Lemma hyphens_take_free (s : string) :
  whitespace_free (TextWrap.take (TextWrap.hyphens s) s) = true.
Proof.
  induction s as [|c s IH]; [done|]. cbn [TextWrap.hyphens].
  destruct (TextWrap.is_hyphen c) eqn:Hc; [|done].
  cbn [TextWrap.take whitespace_free].
  by rewrite (is_hyphen_not_whitespace c Hc), IH.
Qed.

Lemma hyphens_two (s : string) :
  2 ≤ TextWrap.hyphens s →
  ∃ b b' rest, s = String b (String b' rest)
               ∧ TextWrap.is_hyphen b = true
               ∧ TextWrap.is_hyphen b' = true.
Proof.
  destruct s as [|b [|b' rest]]; cbn [TextWrap.hyphens].
  - lia.
  - destruct (TextWrap.is_hyphen b); lia.
  - destruct (TextWrap.is_hyphen b) eqn:Hb; [|lia].
    destruct (TextWrap.is_hyphen b') eqn:Hb'; [|lia].
    intros _. by exists b, b', rest.
Qed.

Lemma dash_ahead_Some (s : string) (k : nat) :
  TextWrap.dash_ahead s = Some k →
  k = TextWrap.hyphens s ∧ 2 ≤ k
  ∧ ∃ b rest, TextWrap.drop k s = String b rest ∧ TextWrap.is_word b = true.
Proof.
  unfold TextWrap.dash_ahead.
  destruct (2 <=? TextWrap.hyphens s) eqn:Hk; [|done].
  apply Nat.leb_le in Hk. cbn [andb].
  destruct (TextWrap.drop (TextWrap.hyphens s) s) as [|b rest] eqn:Hd;
    [done|].
  destruct (TextWrap.is_word b) eqn:Hb; [|done].
  intros [= <-]. split; [done|]. split; [done|]. by exists b, rest.
Qed.

Lemma last_char_cons_cons_cut (a b : ascii) (s right : string) :
  cut_ok (String a (String b s)) right = cut_ok (String b s) right.
Proof. unfold cut_ok. by rewrite last_char_cons_cons. Qed.

(** A word ends before whitespace, before two hyphens, after a hyphen that
    a letter follows, or with the text. *)
Lemma word_rest_cut (back : list ascii) (s : string) (c0 : ascii) :
  let m := TextWrap.word_rest back s in
  TextWrap.drop m s ≠ "" →
  cut_ok (String c0 (TextWrap.take m s)) (TextWrap.drop m s) = true.
Proof.
  revert back c0. induction s as [|c s IH]; intros back c0; [done|].
  cbn [TextWrap.word_rest].
  destruct (TextWrap.is_hyphen c && TextWrap.behind_letters back
            && TextWrap.ahead_letters s) eqn:H1.
  { apply andb_true_iff in H1 as [[Hc _]%andb_true_iff Hah]. intros _.
    cbn [TextWrap.take TextWrap.drop]. unfold TextWrap.ahead_letters in Hah.
    destruct s as [|a [|b s']]; try done.
    apply andb_true_iff in Hah as [Ha _].
    unfold TextWrap.is_letter in Ha. apply andb_true_iff in Ha as [Ha _].
    unfold cut_ok. cbn [last_char]. rewrite Hc, Ha.
    by rewrite !orb_true_r. }
  destruct (TextWrap.is_whitespace c) eqn:H2.
  { intros _. cbn [TextWrap.take TextWrap.drop]. unfold cut_ok.
    cbn [last_char]. rewrite H2. by rewrite orb_true_r. }
  destruct (TextWrap.behind_word_punct back
            && bool_decide (is_Some (TextWrap.dash_ahead (String c s))))
    eqn:H3.
  { apply andb_true_iff in H3 as [_ Hd%bool_decide_eq_true].
    destruct Hd as [k Hd]. apply dash_ahead_Some in Hd as (-> & Hk & _).
    apply hyphens_two in Hk as (b & b' & rest & Heq & Hb & Hb').
    intros _. cbn [TextWrap.take TextWrap.drop]. rewrite Heq.
    unfold cut_ok. cbn [last_char]. rewrite Hb, Hb'.
    by rewrite !orb_true_r. }
  cbv zeta. cbn [TextWrap.take TextWrap.drop]. intros Hne.
  rewrite last_char_cons_cons_cut. by apply IH.
Qed.

(** The match of the chunk pattern ends at a cut, unless it ends the
    text. *)
Lemma next_chunk_cut (back : list ascii) (c : ascii) (s : string) :
  let n := TextWrap.next_chunk_len back (String c s) in
  TextWrap.drop n (String c s) ≠ "" →
  cut_ok (TextWrap.take n (String c s)) (TextWrap.drop n (String c s)) = true.
Proof.
  cbv zeta. unfold TextWrap.next_chunk_len.
  destruct (TextWrap.is_whitespace c) eqn:Hc.
  { cbn [TextWrap.take TextWrap.drop]. intros Hne.
    destruct (only_whitespace_last_char
                (String c (TextWrap.take (TextWrap.whitespace_run s) s)))
      as (a & Ha & Hws); [|done|].
    - cbn [only_whitespace]. by rewrite Hc, whitespace_run_take.
    - unfold cut_ok. rewrite Ha, Hws.
      by destruct (TextWrap.drop (TextWrap.whitespace_run s) s). }
  destruct (if TextWrap.behind_word_punct back
            then TextWrap.dash_ahead (String c s) else None)
    as [k|] eqn:Hd.
  { destruct (TextWrap.behind_word_punct back); [|done].
    apply dash_ahead_Some in Hd as (-> & Hk & b & rest & Hdrop & Hb).
    intros _. destruct (hyphens_take_last (String c s)) as (a & Ha & Hh);
      [lia|].
    unfold cut_ok. rewrite Ha, Hdrop, Hh, Hb. by rewrite !orb_true_r. }
  cbn [TextWrap.take TextWrap.drop]. apply word_rest_cut.
Qed.

Lemma split_from_nil (fuel : nat) (back : list ascii) :
  TextWrap.split_from fuel back "" = [].
Proof. by destruct fuel. Qed.

(** The chunks are not empty and are cut from the text at cuts only. *)
Lemma split_from_cuts_ok (fuel : nat) (back : list ascii) (s : string) :
  Py.len s ≤ fuel → cuts_ok (TextWrap.split_from fuel back s) = true.
Proof.
  revert back s. induction fuel as [|fuel IH]; intros back s Hf; [done|].
  destruct s as [|c s]; [done|]. cbn [TextWrap.split_from].
  set (n := TextWrap.next_chunk_len back (String c s)).
  pose proof (next_chunk_len_pos back c s) as Hpos. fold n in Hpos.
  assert (Py.len (TextWrap.drop n (String c s)) ≤ fuel) as Hlen.
  { rewrite drop_len. simpl in *. lia. }
  pose proof (split_from_cat fuel
                (TextWrap.chars_rev (TextWrap.take n (String c s)) ++ back)
                (TextWrap.drop n (String c s)) Hlen) as Hcat.
  cbn [cuts_ok]. rewrite IH by done. rewrite andb_true_r.
  destruct (TextWrap.split_from fuel _ (TextWrap.drop n (String c s)))
    as [|c2 rest] eqn:Hrest.
  - apply bool_decide_eq_true. by apply take_nonempty.
  - rewrite Hcat. apply next_chunk_cut. fold n. rewrite <- Hcat.
    pose proof (split_from_chunks_nonempty fuel
                  (TextWrap.chars_rev (TextWrap.take n (String c s)) ++ back)
                  (TextWrap.drop n (String c s))) as Hne.
    rewrite Hrest in Hne. apply Forall_cons in Hne as [Hne _].
    rewrite cat_cons. by destruct c2.
Qed.

Lemma word_rest_take_free (back : list ascii) (s : string) :
  whitespace_free (TextWrap.take (TextWrap.word_rest back s) s) = true.
Proof.
  revert back. induction s as [|c s IH]; intros back; [done|].
  cbn [TextWrap.word_rest].
  destruct (TextWrap.is_hyphen c && TextWrap.behind_letters back
            && TextWrap.ahead_letters s) eqn:H1.
  { apply andb_true_iff in H1 as [[Hc _]%andb_true_iff _].
    cbn [TextWrap.take whitespace_free].
    by rewrite (is_hyphen_not_whitespace c Hc). }
  destruct (TextWrap.is_whitespace c) eqn:H2; [done|].
  destruct (TextWrap.behind_word_punct back && _); [done|].
  cbn [TextWrap.take whitespace_free]. by rewrite H2, IH.
Qed.

(** A chunk is a run of whitespace or holds no whitespace. *)
Lemma split_from_kinds (fuel : nat) (back : list ascii) (s : string) :
  Forall (fun c => only_whitespace c = true ∨ whitespace_free c = true)
         (TextWrap.split_from fuel back s).
Proof.
  revert back s. induction fuel as [|fuel IH]; intros back s; [constructor|].
  destruct s as [|c s]; [constructor|]. cbn [TextWrap.split_from].
  constructor; [|apply IH]. unfold TextWrap.next_chunk_len.
  destruct (TextWrap.is_whitespace c) eqn:Hc.
  { left. cbn [TextWrap.take only_whitespace].
    by rewrite Hc, whitespace_run_take. }
  right.
  destruct (if TextWrap.behind_word_punct back
            then TextWrap.dash_ahead (String c s) else None)
    as [k|] eqn:Hd.
  - destruct (TextWrap.behind_word_punct back); [|done].
    apply dash_ahead_Some in Hd as (-> & _). apply hyphens_take_free.
  - cbn [TextWrap.take whitespace_free].
    by rewrite Hc, word_rest_take_free.
Qed.

(** C6, amended. For every text, [comment] returns, and appends to the
    body the wrapped lines followed by exactly one blank line.  The
    wrapper normalises the whitespace of the text and cuts the result
    into pieces that are not empty, each a run of whitespace or free of
    whitespace, and cuts only next to whitespace, between a hyphen and a
    word character, or before two hyphens: a run of characters that holds
    neither whitespace nor a hyphen is never cut.  Every line is the
    prefix [# ] and a run of whole pieces, in the order of the text; only
    blank pieces are left out.  Every line is at most 79 characters long,
    prefix included, unless it holds a single piece, free of whitespace,
    of more than 77 characters. *)
Theorem comment_wraps_whole_chunks {UsageVariable : Type}
    (self : @ReplayPythonUsage UsageVariable) (text : string) :
  let chunks := TextWrap._split_chunks text in
  ∃ groups : list (list string),
    comment self text
    = Some (set_recorder self
              (recorder self
               ++ map (fun g => "# " +:+ Py.cat g) groups ++ [""]))
    ∧ Py.cat chunks = TextWrap._munge_whitespace text
    ∧ cuts_ok chunks = true
    ∧ Forall (fun c => only_whitespace c = true ∨ whitespace_free c = true)
             chunks
    ∧ drops_blank chunks (concat groups)
    ∧ Forall
        (fun g =>
           g ≠ []
           ∧ (Py.len ("# " +:+ Py.cat g) ≤ 79
              ∨ ∃ c, g = [c] ∧ 77 < Py.len c ∧ whitespace_free c = true))
        groups.
Proof.
  intros chunks.
  destruct (wrap_loop_spec (length chunks) 79 "# " [] chunks (le_n _))
    as (groups & Hwrap & Hdrops & Hfits).
  pose proof (split_from_kinds (Py.len (TextWrap._munge_whitespace text)) []
                (TextWrap._munge_whitespace text)) as Hkinds.
  fold (TextWrap._split (TextWrap._munge_whitespace text)) in Hkinds.
  fold (TextWrap._split_chunks text) in Hkinds. fold chunks in Hkinds.
  exists groups. split; [|split; [|split; [|split; [|split]]]].
  - unfold comment, TextWrap.wrap, TextWrap._wrap_chunks.
    fold chunks. rewrite Hwrap. reflexivity.
  - apply split_chunks_cat.
  - apply split_from_cuts_ok. done.
  - exact Hkinds.
  - exact Hdrops.
  - pose proof (drops_blank_Forall _ _ _ Hdrops Hkinds) as Hkept.
    apply Forall_concat in Hkept.
    rewrite Forall_forall in Hfits, Hkept. apply Forall_forall.
    intros g Hg. destruct (Hfits g Hg) as [Hne Hcase].
    split; [done|]. destruct Hcase as [Hle|(c & -> & Hlong & Hnb)].
    + left. rewrite len_app. simpl in *. lia.
    + right. exists c. split; [done|]. split; [done|].
      specialize (Hkept [c] Hg). apply Forall_cons in Hkept as [Hk _].
      destruct Hk as [Hws|Hfree]; [|done].
      by rewrite (only_whitespace_blank c Hws) in Hnb.
Qed.

(** A word may end a line before a run of hyphens. *)
Lemma comment_breaks_before_dashes :
  recorder <$> comment (__init__ (UsageVariable := string) None None)
                       (Py.mul "a" 72 +:+ " foo--bar")
  = Some ["# " +:+ Py.mul "a" 72 +:+ " foo"; "# --bar"; ""].
Proof. vm_compute. reflexivity. Qed.

(** Every cut has whitespace or a hyphen on one of its two sides. *)
Lemma cut_ok_separator (left right : string) :
  cut_ok left right = true →
  ∃ a b rest,
    last_char left = Some a ∧ right = String b rest
    ∧ (TextWrap.is_whitespace a || TextWrap.is_hyphen a
       || TextWrap.is_whitespace b || TextWrap.is_hyphen b) = true.
Proof.
  unfold cut_ok. destruct (last_char left) as [a|]; [|done].
  destruct right as [|b rest]; [done|]. intros H.
  exists a, b, rest. split; [done|]. split; [done|].
  destruct (TextWrap.is_whitespace a), (TextWrap.is_hyphen a),
    (TextWrap.is_whitespace b), (TextWrap.is_hyphen b); done.
Qed.
